(** * Contribution-chain verification pipeline

    A shallow embedding of [src/verify.ts] and of the artifact locator in
    [src/utils.ts] of the trusted-setup ceremony tooling, together with the
    properties of the chain driver, the pair matcher, the external verifier
    adapter and the report aggregator.

    Conventions of the embedding.
    - A JavaScript string is a [string]: a sequence of character codes.
      Comparison is by code, position by position, a proper prefix being
      smaller, as the default comparator of [Array.prototype.sort] does.
    - The file system is a snapshot [FileSystem] taken once the set-up phase
      of [main] (environment check, downloads) is over: a total map from a
      path to the entries of the directory at that path.
    - The external verifier is taken to be deterministic: the command run by
      [execSync] is an oracle [shell] from the command line to its
      completion.  Every spawned command is appended to the [spawned] trace
      of the [World], every console line to [console].
    - The [results] array that [verifyContribution] mutates with [push] is
      passed in and returned.
    - Where what matters is what stops a run or what a call throws, the
      same functions are embedded once more over weaker assumptions:
      [OnDisk] reads a disk on which [fs.readdirSync] may throw, and [Cli]
      spawns commands whose completion depends on the commands spawned
      before.  On a disk whose folders can all be listed the run of
      [OnDisk.main] is the run of [Verify.main] on its snapshot. *)

From Stdlib Require Import List String Ascii Arith Lia Bool DecimalString.
From Stdlib Require Import Permutation Sorted.
Import ListNotations.
Open Scope string_scope.

(** ** JavaScript built-ins used by the two source files *)

Module Js.

(** [String.prototype.endsWith]. *)
Definition endsWith (s search : string) : bool :=
  let n := String.length s in
  let k := String.length search in
  Nat.leb k n && String.eqb (substring (n - k) k s) search.

(** [\d] of a regular expression without the unicode flag: [0-9]. *)
Definition isDigit (c : ascii) : bool :=
  Nat.leb 48 (nat_of_ascii c) && Nat.leb (nat_of_ascii c) 57.

(** Template-literal interpolation of a number. *)
Definition ofNat (n : nat) : string := NilZero.string_of_uint (Nat.to_uint n).

(** [Array.prototype.sort] without a comparator, on an array of strings.
    The order is total and two strings that compare equal are the same
    string, so the result does not depend on the sorting algorithm. *)
Fixpoint insertSorted (x : string) (l : list string) : list string :=
  match l with
  | [] => [x]
  | y :: l' => if String.leb x y then x :: l else y :: insertSorted x l'
  end.

Definition sort (l : list string) : list string :=
  fold_right insertSorted [] l.

(** [[...new Set(xs)]]: the distinct elements in order of first
    occurrence. *)
Definition distinct (xs : list string) : list string :=
  fold_left
    (fun seen x => if existsb (String.eqb x) seen then seen else (seen ++ [x])%list)
    xs [].

(** *** Plain objects used as [Record<string, T>]

    An object literal [{}] has no own property and [Object.prototype] as
    its prototype.  Own string keys are kept in insertion order. *)
Definition object (T : Type) : Type := list (string * T).

(** The property names of [Object.prototype]. *)
Definition prototypeKeys : list string :=
  [ "constructor"; "__defineGetter__"; "__defineSetter__"; "hasOwnProperty";
    "__lookupGetter__"; "__lookupSetter__"; "isPrototypeOf";
    "propertyIsEnumerable"; "toString"; "valueOf"; "__proto__";
    "toLocaleString" ].

Definition isPrototypeKey (k : string) : bool :=
  existsb (String.eqb k) prototypeKeys.

(** The value of [o[k]]: an own property, a member inherited from
    [Object.prototype] (a function, or the prototype itself for
    [__proto__]: truthy, and neither an array nor a string), or
    [undefined]. *)
Inductive Lookup (T : Type) : Type :=
| Own (v : T)
| Inherited
| Undefined.
Arguments Own {T} v.
Arguments Inherited {T}.
Arguments Undefined {T}.

Definition hasOwn {T} (o : object T) (k : string) : bool :=
  existsb (fun kv => String.eqb (fst kv) k) o.

Definition get {T} (o : object T) (k : string) : Lookup T :=
  match find (fun kv => String.eqb (fst kv) k) o with
  | Some kv => Own (snd kv)
  | None => if isPrototypeKey k then Inherited else Undefined
  end.

(** The assignment [o[k] = v].  Under the key [__proto__] the setter
    inherited from [Object.prototype] runs instead: it ignores a value
    that is not an object, and the program assigns nothing but strings
    under a key that it has not first found to be absent. *)
Definition set {T} (o : object T) (k : string) (v : T) : object T :=
  if String.eqb k "__proto__" then o
  else if hasOwn o k
       then map (fun kv => if String.eqb (fst kv) k then (k, v) else kv) o
       else (o ++ [(k, v)])%list.

(** [Object.keys] followed by [sort()]: the sort makes the enumeration
    order of the own keys irrelevant. *)
Definition sortedKeys {T} (o : object T) : list string :=
  sort (map fst o).

End Js.

(** ** The [path] module of Node.js (POSIX flavour) *)

Module Path.

Definition slash : ascii := "/"%char.

(** The pieces of a path between its separators. *)
Fixpoint splitAux (cur : string) (s : string) : list string :=
  match s with
  | EmptyString => [cur]
  | String c s' =>
      if Ascii.eqb c slash then cur :: splitAux "" s'
      else splitAux (cur ++ String c "") s'
  end.

Definition split (s : string) : list string := splitAux "" s.

(** [normalizeString]: drops empty and [.] segments and resolves [..]
    against the segment before it; [stack] holds the kept segments, last
    one first. *)
Fixpoint normalizeSegments (allowAboveRoot : bool) (stack : list string)
         (segs : list string) : list string :=
  match segs with
  | [] => rev stack
  | seg :: rest =>
      if String.eqb seg "" || String.eqb seg "." then
        normalizeSegments allowAboveRoot stack rest
      else if String.eqb seg ".." then
        match stack with
        | top :: below =>
            if String.eqb top ".." then
              normalizeSegments allowAboveRoot
                (if allowAboveRoot then ".." :: stack else stack) rest
            else normalizeSegments allowAboveRoot below rest
        | [] =>
            normalizeSegments allowAboveRoot
              (if allowAboveRoot then [".."] else []) rest
        end
      else normalizeSegments allowAboveRoot (seg :: stack) rest
  end.

Definition startsWithSlash (p : string) : bool :=
  match p with
  | String c _ => Ascii.eqb c slash
  | EmptyString => false
  end.

(** [path.normalize]. *)
Definition normalize (p : string) : string :=
  if String.eqb p "" then "."
  else
    let isAbsolute := startsWithSlash p in
    let trailingSeparator := Js.endsWith p "/" in
    let body :=
      String.concat "/" (normalizeSegments (negb isAbsolute) [] (split p)) in
    if String.eqb body "" then
      if isAbsolute then "/" else if trailingSeparator then "./" else "."
    else
      let body := if trailingSeparator then body ++ "/" else body in
      if isAbsolute then "/" ++ body else body.

(** [path.join]. *)
Definition join (args : list string) : string :=
  match filter (fun a => negb (String.eqb a "")) args with
  | [] => "."
  | parts => normalize (String.concat "/" parts)
  end.

(** The last non-empty segment of a path. *)
Definition lastComponent (p : string) : string :=
  last (filter (fun a => negb (String.eqb a "")) (split p)) "".

(** [path.basename(p)] and [path.basename(p, ext)]. *)
Definition basename (p : string) (ext : option string) : string :=
  let comp := lastComponent p in
  match ext with
  | None => comp
  | Some e =>
      if String.eqb e "" || Nat.ltb (String.length p) (String.length e) then comp
      else if String.eqb e p then ""
      else if Js.endsWith comp e && negb (String.eqb comp e)
           then substring 0 (String.length comp - String.length e) comp
           else comp
  end.

(** A name of a directory entry holds no separator. *)
Definition slashFree (s : string) : bool :=
  forallb (fun c => negb (Ascii.eqb c slash)) (list_ascii_of_string s).

End Path.

(** ** The world the program runs in *)

(** An entry of a directory, as [fs.Dirent]. *)
Record Dirent : Type := mkDirent {
  name : string;
  isDirectory : bool
}.

(** The entries of the directory at a path. *)
Definition FileSystem : Type := string -> list Dirent.

(** What a [try] block can catch: an [Error] with its message, or any
    other thrown value. *)
Inductive Thrown : Type :=
| ErrorObject (message : string)
| NonError.

(** How a call that may throw completes. *)
Inductive Completion : Type :=
| Normal
| Throws (error : Thrown).

Inductive Stream : Type := Stdout | Stderr.

Record World : Type := mkWorld {
  console : list (Stream * string);
  spawned : list string
}.

(** State passing over the [World]. *)
Definition IO (A : Type) : Type := World -> A * World.

Definition ret {A} (a : A) : IO A := fun w => (a, w).

Definition bind {A B} (m : IO A) (k : A -> IO B) : IO B :=
  fun w => let (a, w') := m w in k a w'.

Notation "x <- m ;; k" := (bind m (fun x => k))
  (at level 61, m at next level, right associativity).
Notation "m ;;; k" := (bind m (fun _ => k))
  (at level 61, right associativity).

Definition console_log (line : string) : IO unit :=
  fun w => (tt, {| console := (console w ++ [(Stdout, line)])%list;
                   spawned := spawned w |}).

Definition console_error (line : string) : IO unit :=
  fun w => (tt, {| console := (console w ++ [(Stderr, line)])%list;
                   spawned := spawned w |}).

(** [for (const x of xs) body], the loop state being threaded through the
    iterations. *)
Fixpoint forOf {A S : Type} (body : A -> S -> IO S) (xs : list A) (s : S)
  : IO S :=
  match xs with
  | [] => ret s
  | x :: rest => s' <- body x s ;; forOf body rest s'
  end.

(** The line feed of a string or template literal. *)
Definition LF : string := String (ascii_of_nat 10) "".

(** ** [src/utils.ts]: the artifact locator *)

Module Utils.

Definition contributionRootFolder : string := "./contributions".

(** [fs.readdirSync(p)]: the names of the entries. *)
Definition readdirSync (fs : FileSystem) (p : string) : list string :=
  map name (fs p).

Definition getDirectories (fs : FileSystem) (source : string) : list string :=
  map name (filter isDirectory (fs source)).

Definition getZkeyFiles (fs : FileSystem) (directory : string) : list string :=
  let zkFilesFolder := Path.join [contributionRootFolder; directory] in
  filter (fun file => Js.endsWith file ".zkey") (readdirSync fs zkFilesFolder).

(** [f.match(/^\d{4}_/)] is not [null]. *)
Definition matchesOrdinalPrefix (f : string) : bool :=
  match f with
  | String d1 (String d2 (String d3 (String d4 (String u _)))) =>
      Js.isDigit d1 && Js.isDigit d2 && Js.isDigit d3 && Js.isDigit d4
      && Ascii.eqb u "_"
  | _ => false
  end.

Definition getContributionFolders (fs : FileSystem) : list string :=
  let folders := getDirectories fs contributionRootFolder in
  let contributionFolders := filter matchesOrdinalPrefix folders in
  Js.sort contributionFolders.

End Utils.

(** ** [src/verify.ts]: adapter, pair matcher, chain driver, report *)

Module Verify.

Record VerificationResult : Type := mkResult {
  contributionFolder : string;
  circuitName : string;
  success : bool;
  errorMessage : option string
}.

(** The object [{ success, errorMessage? }] that [verifyZkeyContribution]
    returns. *)
Record Verdict : Type := mkVerdict {
  verdictSuccess : bool;
  verdictErrorMessage : option string
}.

(** A cell of the summary table: the three marks [PASS], [FAIL], [N/A]. *)
Inductive Cell : Type := PASS | FAIL | NA.

(** What [printResultsTable] computes and prints: the header, one row per
    folder, the totals and the list of failed verifications.  The padding
    of the columns to a common width is layout only and is left out. *)
Record SummaryTable : Type := mkTable {
  allCircuits : list string;
  rows : list (string * list Cell);
  totalTests : nat;
  passedTests : nat;
  failedTests : nat;
  failedVerifications : list (string * string * string)
}.

(** How the part of [main] before the verification loop went (lines
    149-178: environment check, public-parameters file, baseline,
    downloads); these are collaborators of the pipeline and may throw. *)
Inductive Setup : Type :=
| SetupThrows
| SetupDone (ptauFile : string).

(** How [main] ends on a snapshot, where no listing throws.  The endings
    of a run on a disk whose listings may throw are [OnDisk.Ending]. *)
Inductive Ending : Type :=
| ExitInSetup
    (* the set-up threw: [process.exit(1)] *)
| NothingToVerify
    (* the [return] of line 187 *)
| Summarised (verificationResults : list VerificationResult)
             (table : SummaryTable)
    (* the loop ran and the summary was printed *)
| ExitInSummary (verificationResults : list VerificationResult).
    (* the loop ran and [printResultsTable] threw: [process.exit(1)] *)

(** The [verificationResults] array at the end of the loop, if [main] got
    that far. *)
Definition accumulated (e : Ending) : option (list VerificationResult) :=
  match e with
  | Summarised rs _ | ExitInSummary rs => Some rs
  | ExitInSetup | NothingToVerify => None
  end.

(** The outcomes a run produced: none when [main] ends before the loop. *)
Definition outcomes (e : Ending) : list VerificationResult :=
  match accumulated e with
  | Some verificationResults => verificationResults
  | None => []
  end.

Definition zkviCommand (initialZkeyFile ptauFile contributionZkeyFile : string)
  : string :=
  "node --max-old-space-size=8192 ./node_modules/.bin/snarkjs zkvi "
    ++ initialZkeyFile ++ " " ++ ptauFile ++ " " ++ contributionZkeyFile.

Definition missingInitialZkey (contributionFolder circuitName : string)
  : VerificationResult :=
  {| contributionFolder := contributionFolder;
     circuitName := circuitName;
     success := false;
     errorMessage := Some "Missing initial zkey file" |}.

Section Run.

Variable fs : FileSystem.
Variable shell : string -> Completion.

(** [execSync(command, { stdio: "inherit" })]: throws when the command
    cannot be spawned or exits with a non-zero status. *)
Definition execSync (command : string) : IO Completion :=
  fun w => (shell command,
            {| console := console w;
               spawned := (spawned w ++ [command])%list |}).

Definition verifyZkeyContribution
           (initialZkeyFile ptauFile contributionZkeyFile : string)
  : IO Verdict :=
  completion <-
    execSync (zkviCommand initialZkeyFile ptauFile contributionZkeyFile) ;;
  match completion with
  | Normal =>
      console_log ("✅ " ++ Path.basename contributionZkeyFile None
                         ++ " verification successful!") ;;;
      ret {| verdictSuccess := true; verdictErrorMessage := None |}
  | Throws error =>
      console_error ("❌ Failed to verify "
                       ++ Path.basename contributionZkeyFile None) ;;;
      match error with
      | ErrorObject message =>
          console_error message ;;;
          ret {| verdictSuccess := false;
                 verdictErrorMessage := Some message |}
      | NonError =>
          ret {| verdictSuccess := false;
                 verdictErrorMessage := Some "Unknown error" |}
      end
  end.

(** The body of the loop over [contributionZkeyFiles] (lines 50-85);
    the loop state is [allSuccessful] and the [results] array. *)
Definition verifyArtifact
           (contributionFolder initialFolder ptauFile : string)
           (initialZkeyFiles : list string) (zkeyFile : string)
           (state : bool * list VerificationResult)
  : IO (bool * list VerificationResult) :=
  let (allSuccessful, results) := state in
  let circuitName := Path.basename zkeyFile (Some ".zkey") in
  let unmatched :=
    console_error ("❌ Could not find matching initial zkey file for "
                     ++ zkeyFile) ;;;
    ret (false,
         (results ++ [missingInitialZkey contributionFolder circuitName])%list)
  in
  match find (fun file => String.eqb file zkeyFile) initialZkeyFiles with
  | None => unmatched
  | Some initialZkeyFile =>
      if String.eqb initialZkeyFile "" then unmatched
      else
        let fullInitialZkeyPath :=
          Path.join [Utils.contributionRootFolder; initialFolder;
                     initialZkeyFile] in
        let fullContributionZkeyPath :=
          Path.join [Utils.contributionRootFolder; contributionFolder;
                     zkeyFile] in
        console_log (LF ++ "Verifying " ++ zkeyFile
                        ++ " using initial zkey file...") ;;;
        verdict <- verifyZkeyContribution fullInitialZkeyPath ptauFile
                                          fullContributionZkeyPath ;;
        ret (allSuccessful && verdictSuccess verdict,
             (results ++ [ {| contributionFolder := contributionFolder;
                              circuitName := circuitName;
                              success := verdictSuccess verdict;
                              errorMessage := verdictErrorMessage verdict |} ])%list)
  end.

Definition verifyContribution
           (contributionFolder initialFolder ptauFile : string)
           (results : list VerificationResult)
  : IO (bool * list VerificationResult) :=
  console_log (LF ++ "Verifying contributions in " ++ contributionFolder
                  ++ "...") ;;;
  let contributionZkeyFiles := Utils.getZkeyFiles fs contributionFolder in
  if Nat.eqb (List.length contributionZkeyFiles) 0 then
    console_error ("No .zkey files found in " ++ contributionFolder) ;;;
    ret (false, results)
  else
    let initialZkeyFiles := Utils.getZkeyFiles fs initialFolder in
    if Nat.eqb (List.length initialZkeyFiles) 0 then
      console_error ("No .zkey files found in " ++ initialFolder) ;;;
      ret (false, results)
    else
      forOf (verifyArtifact contributionFolder initialFolder ptauFile
                            initialZkeyFiles)
            contributionZkeyFiles (true, results).


(** The reducer of lines 94-100.  [acc[k]] is truthy for an own array
    and for a member inherited from [Object.prototype]; the latter has
    no [push] method, so calling it throws a [TypeError] ([None]). *)
Definition groupByFolder
           (acc : option (Js.object (list VerificationResult)))
           (result : VerificationResult)
  : option (Js.object (list VerificationResult)) :=
  match acc with
  | None => None
  | Some acc =>
      let k := contributionFolder result in
      match Js.get acc k with
      | Js.Undefined => Some (Js.set acc k [result])
      | Js.Own group => Some (Js.set acc k (group ++ [result])%list)
      | Js.Inherited => None
      end
  end.

Definition markOf (result : VerificationResult) : Cell :=
  if success result then PASS else FAIL.

(** Lines 116-121: the marks of one folder by circuit name. *)
Definition resultByCircuitOf (folderResults : list VerificationResult)
  : Js.object Cell :=
  fold_left (fun o result => Js.set o (circuitName result) (markOf result))
            folderResults [].

(** [(resultByCircuit[circuit] || "N/A").padEnd(circuitWidth)]: a mark is
    a non-empty string; an inherited member is truthy and has no
    [padEnd] method, so calling it throws a [TypeError] ([None]). *)
Definition cellOf (resultByCircuit : Js.object Cell) (circuit : string)
  : option Cell :=
  match Js.get resultByCircuit circuit with
  | Js.Own mark => Some mark
  | Js.Undefined => Some NA
  | Js.Inherited => None
  end.

(** [xs.map(f)] where a call of [f] may throw. *)
Fixpoint mapOrThrow {A B : Type} (f : A -> option B) (xs : list A)
  : option (list B) :=
  match xs with
  | [] => Some []
  | x :: rest =>
      match f x with
      | None => None
      | Some y =>
          match mapOrThrow f rest with
          | None => None
          | Some ys => Some (y :: ys)
          end
      end
  end.

(** Lines 114-127: the row of one folder. *)
Definition rowOf (folderGroups : Js.object (list VerificationResult))
           (allCircuits : list string) (folder : string)
  : option (string * list Cell) :=
  match Js.get folderGroups folder with
  | Js.Own folderResults =>
      match mapOrThrow (cellOf (resultByCircuitOf folderResults))
                       allCircuits with
      | Some cells => Some (folder, cells)
      | None => None
      end
  | _ => None
  end.

(** [result.errorMessage || "Verification failed"]. *)
Definition failureText (result : VerificationResult) : string :=
  match errorMessage result with
  | Some message =>
      if String.eqb message "" then "Verification failed" else message
  | None => "Verification failed"
  end.

(** [printResultsTable]; [None] when it throws. *)
Definition printResultsTable (results : list VerificationResult)
  : option SummaryTable :=
  match fold_left groupByFolder results
                  (Some ([] : Js.object (list VerificationResult))) with
  | None => None
  | Some folderGroups =>
      let allCircuits := Js.sort (Js.distinct (map circuitName results)) in
      match mapOrThrow (rowOf folderGroups allCircuits)
                       (Js.sortedKeys folderGroups) with
      | None => None
      | Some rows =>
          let totalTests := List.length results in
          let passedTests := List.length (filter success results) in
          let failedTests := totalTests - passedTests in
          Some {| allCircuits := allCircuits;
                  rows := rows;
                  totalTests := totalTests;
                  passedTests := passedTests;
                  failedTests := failedTests;
                  failedVerifications :=
                    if Nat.ltb 0 failedTests then
                      map (fun result => (contributionFolder result,
                                          circuitName result,
                                          failureText result))
                          (filter (fun r => negb (success r)) results)
                    else [] |}
      end
  end.

(** [main] from line 181 on, given how the set-up went, on a snapshot of
    the file system: every listing returns, so nothing throws inside the
    loop.  The console lines of the set-up and of the [catch] block are
    not recorded.  [OnDisk.main] is the same function on a disk whose
    listings may throw. *)
Definition main (setup : Setup) : IO Ending :=
  match setup with
  | SetupThrows => ret ExitInSetup
  | SetupDone ptauFile =>
      let contributionFolders := Utils.getContributionFolders fs in
      console_log ("Found " ++ Js.ofNat (List.length contributionFolders)
                            ++ " contributions") ;;;
      if Nat.ltb (List.length contributionFolders) 2 then
        console_log "At least two contributions are needed for verification." ;;;
        console_log "There's only the initial setup folder. Nothing to verify yet." ;;;
        ret NothingToVerify
      else
        let initialFolder := nth 0 contributionFolders "" in
        verificationResults <-
          forOf (fun i verificationResults =>
                   let currentFolder := nth i contributionFolders "" in
                   done <- verifyContribution currentFolder initialFolder
                                              ptauFile verificationResults ;;
                   ret (snd done))
                (seq 1 (List.length contributionFolders - 1)) [] ;;
        match printResultsTable verificationResults with
        | Some table => ret (Summarised verificationResults table)
        | None => ret (ExitInSummary verificationResults)
        end
  end.

End Run.

End Verify.


(** ** What the pipeline is expected to produce

    Closed forms of the outcomes and of the spawned commands, used to state
    the properties of the functions above. *)

Module Chain.

Import Verify.

(** The value of the digit [c]. *)
Definition digitValue (c : ascii) : nat := nat_of_ascii c - 48.

(** The number that the four-digit prefix of a folder name denotes. *)
Definition ordinalOf (folder : string) : nat :=
  match folder with
  | String d1 (String d2 (String d3 (String d4 _))) =>
      1000 * digitValue d1 + 100 * digitValue d2 + 10 * digitValue d3
      + digitValue d4
  | _ => 0
  end.

(** Lexical order of two names, as [sort()] compares them. *)
Definition lexLe (a b : string) : Prop := String.leb a b = true.

(** The verdict of the adapter as a function of how the command completed. *)
Definition verdictOf (completion : Completion) : Verdict :=
  match completion with
  | Normal => {| verdictSuccess := true; verdictErrorMessage := None |}
  | Throws (ErrorObject message) =>
      {| verdictSuccess := false; verdictErrorMessage := Some message |}
  | Throws NonError =>
      {| verdictSuccess := false; verdictErrorMessage := Some "Unknown error" |}
  end.

Section Expected.

Variable fs : FileSystem.
Variable shell : string -> Completion.
Variable ptauFile : string.

(** The artifact [zkeyFile] has a namesake in [initialFolder]. *)
Definition isMatched (initialFolder zkeyFile : string) : bool :=
  existsb (String.eqb zkeyFile) (Utils.getZkeyFiles fs initialFolder).

(** The command that verifies the artifact [zkeyFile] of
    [contributionFolder] against its namesake in [referenceFolder]. *)
Definition pairCommand (referenceFolder contributionFolder zkeyFile : string)
  : string :=
  zkviCommand
    (Path.join [Utils.contributionRootFolder; referenceFolder; zkeyFile])
    ptauFile
    (Path.join [Utils.contributionRootFolder; contributionFolder; zkeyFile]).

(** The outcome recorded for one artifact of [contributionFolder]. *)
Definition outcomeOf (initialFolder contributionFolder zkeyFile : string)
  : VerificationResult :=
  let circuitName := Path.basename zkeyFile (Some ".zkey") in
  if isMatched initialFolder zkeyFile then
    let verdict :=
      verdictOf (shell (pairCommand initialFolder contributionFolder zkeyFile)) in
    {| contributionFolder := contributionFolder;
       circuitName := circuitName;
       success := verdictSuccess verdict;
       errorMessage := verdictErrorMessage verdict |}
  else missingInitialZkey contributionFolder circuitName.

(** One of the two listings is empty: the folder is given up as a whole. *)
Definition folderSkipped (initialFolder contributionFolder : string) : bool :=
  match Utils.getZkeyFiles fs contributionFolder,
        Utils.getZkeyFiles fs initialFolder with
  | [], _ | _, [] => true
  | _, _ => false
  end.

(** One outcome per artifact of the folder, in the order of its listing. *)
Definition artifactOutcomes (initialFolder contributionFolder : string)
  : list VerificationResult :=
  map (outcomeOf initialFolder contributionFolder)
      (Utils.getZkeyFiles fs contributionFolder).

(** One command per matched artifact of the folder. *)
Definition artifactCommands (referenceFolder contributionFolder : string)
  : list string :=
  map (pairCommand referenceFolder contributionFolder)
      (filter (isMatched referenceFolder)
              (Utils.getZkeyFiles fs contributionFolder)).

Definition folderOutcomes (initialFolder contributionFolder : string)
  : list VerificationResult :=
  if folderSkipped initialFolder contributionFolder then []
  else artifactOutcomes initialFolder contributionFolder.

Definition folderCommands (initialFolder contributionFolder : string)
  : list string :=
  if folderSkipped initialFolder contributionFolder then []
  else artifactCommands initialFolder contributionFolder.

(** The outcomes and commands of the contribution folders [folders], all
    taken against [initialFolder]. *)
Definition chainOutcomes (initialFolder : string) (folders : list string)
  : list VerificationResult :=
  flat_map (folderOutcomes initialFolder) folders.

Definition chainCommands (initialFolder : string) (folders : list string)
  : list string :=
  flat_map (folderCommands initialFolder) folders.

(** The body of the loop of [main], with the folder in place of its
    index. *)
Definition chainStep (initialFolder currentFolder : string)
           (verificationResults : list VerificationResult)
  : IO (list VerificationResult) :=
  done <- verifyContribution fs shell currentFolder initialFolder ptauFile
                             verificationResults ;;
  ret (snd done).


(** The verification pass as the specification words it: the artifacts of
    the folder at position [i] are paired with their namesakes in the folder
    at position [i - 1]. *)
Fixpoint predecessorCommands (orderedFolders : list string) : list string :=
  match orderedFolders with
  | previous :: ((current :: _) as rest) =>
      (artifactCommands previous current ++ predecessorCommands rest)%list
  | _ => []
  end.

End Expected.

(** The report aggregator as the specification words it: one row per folder,
    in the order in which the folders first occur in the outcome list. *)
Definition rowsByFirstOccurrence (results : list VerificationResult)
  : list string :=
  Js.distinct (map contributionFolder results).

End Chain.


(** ** The cells of the summary, closed form *)

Module Report.

Import Verify.

(** The last outcome of the list recorded for [folder] and [circuit]. *)
Definition lastOutcome (results : list VerificationResult)
           (folder circuit : string) : option VerificationResult :=
  find (fun r => String.eqb (contributionFolder r) folder
                 && String.eqb (circuitName r) circuit)
       (rev results).

(** The mark that the summary shows for [folder] and [circuit]. *)
Definition cellFor (results : list VerificationResult)
           (folder circuit : string) : Cell :=
  match lastOutcome results folder circuit with
  | Some r => markOf r
  | None => NA
  end.


End Report.

(** ** More string methods of JavaScript *)

Module JsText.

(** [String.prototype.startsWith]. *)
Definition startsWith (s search : string) : bool := String.prefix search s.

(** [String.prototype.includes]. *)
Fixpoint includes (s search : string) : bool :=
  String.prefix search s
  || match s with
     | EmptyString => false
     | String _ rest => includes rest search
     end.

(** [s.slice(0, -1)]: [s] without its last character. *)
Definition dropLast (s : string) : string :=
  substring 0 (String.length s - 1) s.

End JsText.

(** ** [src/utils.ts]: AWS command line, ignored files *)

Module Storage.

(** A call that returns a value or throws. *)
Inductive Outcome (A : Type) : Type :=
| Returns (value : A)
| Raises (error : Thrown).
Arguments Returns {A} value.
Arguments Raises {A} error.

(** The [stdio] option of [execSync]. *)
Inductive Stdio : Type := Inherit | Pipe | Ignore.

(** [console.warn] writes to the standard error stream. *)
Definition console_warn (line : string) : IO unit := console_error line.

(** The names that [crossCheckFilesWithS3] leaves out of its comparison. *)
Definition ignoreFiles : list string :=
  [".DS_Store"; "Thumbs.db"; ".directory"; "._*"].

(** [shouldIgnoreFile], local to [crossCheckFilesWithS3]. *)
Definition shouldIgnoreFile (file : string) : bool :=
  existsb (fun pattern =>
             if Js.endsWith pattern "*"
             then JsText.startsWith file (JsText.dropLast pattern)
             else String.eqb file pattern)
          ignoreFiles.

Section Cli.

(** [process.env.S3BUCKET]. *)
Variable S3BUCKET : option string.

(** How a command completes, and what it writes to its standard output
    when that is piped back. *)
Variable shell : string -> Completion.
Variable stdout : string -> string.

(** [process.env.S3BUCKET || 's3://pp-trusted-test']. *)
Definition S3_BUCKET_PATH : string :=
  match S3BUCKET with
  | Some bucket => if String.eqb bucket "" then "s3://pp-trusted-test" else bucket
  | None => "s3://pp-trusted-test"
  end.

(** [execSync(command, { stdio, encoding: 'utf8' })]: the text of the
    standard output when it is piped, [null] otherwise. *)
Definition execSyncWith (stdio : Stdio) (command : string)
  : IO (Outcome (option string)) :=
  fun w =>
    (match shell command with
     | Normal =>
         Returns (match stdio with
                  | Pipe => Some (stdout command)
                  | Inherit | Ignore => None
                  end)
     | Throws error => Raises error
     end,
     {| console := console w;
        spawned := (spawned w ++ [command])%list |}).

Definition isAwsCliAvailable : IO bool :=
  done <- execSyncWith Ignore "aws --version" ;;
  match done with
  | Returns _ => ret true
  | Raises _ => ret false
  end.

Definition runAwsCommand (command : string) (stdio : Stdio)
  : IO (Outcome (option string)) :=
  available <- isAwsCliAvailable ;;
  if negb available then
    console_warn
      "AWS CLI not available or not compatible with current environment." ;;;
    if JsText.includes command "s3 cp" && JsText.includes command "--recursive"
    then
      ret (Raises
             (ErrorObject
                "AWS CLI not available or not compatible with current environment."))
    else ret (Returns (Some ""))
  else
    done <- execSyncWith stdio command ;;
    match done with
    | Returns output => ret (Returns output)
    | Raises _ =>
        match stdio with
        | Ignore => ret (Returns (Some ""))
        | Inherit | Pipe =>
            console_warn ("Command failed: " ++ command) ;;;
            console_warn
              "This may be due to architecture compatibility issues in Docker." ;;;
            ret (Returns (Some ""))
        end
    end.

(** The copy command of [uploadToS3]. *)
Definition uploadCommand (folderName : string) : string :=
  "aws s3 cp " ++ Path.join [Utils.contributionRootFolder; folderName]
    ++ " " ++ (S3_BUCKET_PATH ++ "/" ++ folderName) ++ " --recursive".

End Cli.

End Storage.

(** ** The AWS command line when the same command can complete differently

    [runAwsCommand] probes the command line again before the command that
    [uploadToS3] hands it; the two probes are separate processes.  Here the
    completion of a command depends on the commands spawned before it. *)

Module Cli.

Import Storage.

Section Timed.

Variable S3BUCKET : option string.

(** How a command completes, and what it writes to its standard output,
    when it is spawned after the given commands. *)
Variable shellAt : list string -> string -> Completion.
Variable stdoutAt : list string -> string -> string.

(** How [console.error] renders a caught value. *)
Variable inspect : Thrown -> string.

Definition execSyncWith (stdio : Stdio) (command : string)
  : IO (Outcome (option string)) :=
  fun w =>
    (match shellAt (spawned w) command with
     | Normal =>
         Returns (match stdio with
                  | Pipe => Some (stdoutAt (spawned w) command)
                  | Inherit | Ignore => None
                  end)
     | Throws error => Raises error
     end,
     {| console := console w;
        spawned := (spawned w ++ [command])%list |}).

Definition isAwsCliAvailable : IO bool :=
  done <- execSyncWith Ignore "aws --version" ;;
  match done with
  | Returns _ => ret true
  | Raises _ => ret false
  end.

Definition runAwsCommand (command : string) (stdio : Stdio)
  : IO (Outcome (option string)) :=
  available <- isAwsCliAvailable ;;
  if negb available then
    console_warn
      "AWS CLI not available or not compatible with current environment." ;;;
    if JsText.includes command "s3 cp" && JsText.includes command "--recursive"
    then
      ret (Raises
             (ErrorObject
                "AWS CLI not available or not compatible with current environment."))
    else ret (Returns (Some ""))
  else
    done <- execSyncWith stdio command ;;
    match done with
    | Returns output => ret (Returns output)
    | Raises _ =>
        match stdio with
        | Ignore => ret (Returns (Some ""))
        | Inherit | Pipe =>
            console_warn ("Command failed: " ++ command) ;;;
            console_warn
              "This may be due to architecture compatibility issues in Docker." ;;;
            ret (Returns (Some ""))
        end
    end.

Definition uploadToS3 (folderName : string) : IO bool :=
  available <- isAwsCliAvailable ;;
  if negb available then
    console_warn "AWS CLI not available. Skipping S3 upload." ;;;
    ret false
  else
    let localPath := Path.join [Utils.contributionRootFolder; folderName] in
    let s3Path := S3_BUCKET_PATH S3BUCKET ++ "/" ++ folderName in
    console_log ("Uploading files from " ++ localPath ++ " to " ++ s3Path
                   ++ "...") ;;;
    result <- runAwsCommand (uploadCommand S3BUCKET folderName) Inherit ;;
    match result with
    | Returns (Some "") =>
        console_warn "S3 upload was not successful." ;;;
        ret false
    | Returns _ =>
        console_log "Upload complete!" ;;;
        ret true
    | Raises error =>
        console_error ("Error uploading files to S3: " ++ inspect error) ;;;
        ret false
    end.

End Timed.

End Cli.

(** ** The program on a disk whose directories may fail to be listed

    [fs.readdirSync] throws when the directory is missing or cannot be
    read.  [verifyContribution] lists the folder and the baseline outside
    any [try], so the error reaches the [catch] of [main], which exits with
    code one.  The functions of [Utils] and [Verify] above are these on a
    disk where every directory can be listed. *)

Module OnDisk.

Import Verify.

(** What [fs.readdirSync] finds at a path: the entries, or the error it
    throws with its message. *)
Inductive Listing : Type :=
| Listed (entries : list Dirent)
| Unreadable (message : string).

Definition Disk : Type := string -> Listing.

(** A call that returns or throws an [Error] with a message. *)
Inductive Try (A : Type) : Type :=
| Done (value : A)
| Failed (message : string).
Arguments Done {A} value.
Arguments Failed {A} message.

(** The entries of the directories that can be listed. *)
Definition snapshot (disk : Disk) : FileSystem := fun p =>
  match disk p with
  | Listed entries => entries
  | Unreadable _ => []
  end.

(** The disk on which every directory of [fs] can be listed. *)
Definition readable (fs : FileSystem) : Disk := fun p => Listed (fs p).

(** The folder, under the contribution root, can be listed. *)
Definition listable (disk : Disk) (folder : string) : Prop :=
  match disk (Path.join [Utils.contributionRootFolder; folder]) with
  | Listed _ => True
  | Unreadable _ => False
  end.

Definition readdirSync (disk : Disk) (p : string) : Try (list string) :=
  match disk p with
  | Listed entries => Done (map name entries)
  | Unreadable message => Failed message
  end.

Definition getDirectories (disk : Disk) (source : string) : Try (list string) :=
  match disk source with
  | Listed entries => Done (map name (filter isDirectory entries))
  | Unreadable message => Failed message
  end.

Definition getZkeyFiles (disk : Disk) (directory : string) : Try (list string) :=
  let zkFilesFolder := Path.join [Utils.contributionRootFolder; directory] in
  match readdirSync disk zkFilesFolder with
  | Done files => Done (filter (fun file => Js.endsWith file ".zkey") files)
  | Failed message => Failed message
  end.

Definition getContributionFolders (disk : Disk) : Try (list string) :=
  match getDirectories disk Utils.contributionRootFolder with
  | Done folders => Done (Js.sort (filter Utils.matchesOrdinalPrefix folders))
  | Failed message => Failed message
  end.

(** [getCircuitR1cs]: the first circuit description of the baseline.  The
    folder is read under the contribution root; the returned path starts
    at the folder. *)
Definition getCircuitR1cs (disk : Disk) (initialFolder : string) : Try string :=
  let folder := Path.join [Utils.contributionRootFolder; initialFolder] in
  match readdirSync disk folder with
  | Failed message => Failed message
  | Done entries =>
      match filter (fun file => Js.endsWith file ".r1cs") entries with
      | [] => Failed ("No .r1cs files found in " ++ initialFolder)
      | first :: _ => Done (Path.join [initialFolder; first])
      end
  end.

(** How [main] ends. *)
Inductive Ending : Type :=
| ExitInSetup
    (* the set-up threw: [process.exit(1)] *)
| ExitListingFolders (message : string)
    (* [getContributionFolders] threw on line 181: [process.exit(1)] *)
| NothingToVerify
    (* the [return] of line 187 *)
| ExitInLoop (verificationResults : list VerificationResult)
             (message : string)
    (* a call of [verifyContribution] threw: [process.exit(1)], with the
       results recorded until then and no summary *)
| Summarised (verificationResults : list VerificationResult)
             (table : SummaryTable)
    (* the loop ran and the summary was printed *)
| ExitInSummary (verificationResults : list VerificationResult).
    (* the loop ran and [printResultsTable] threw: [process.exit(1)] *)

(** The ending of a run on a disk where nothing fails to be listed. *)
Definition lift (e : Verify.Ending) : Ending :=
  match e with
  | Verify.ExitInSetup => ExitInSetup
  | Verify.NothingToVerify => NothingToVerify
  | Verify.Summarised rs table => Summarised rs table
  | Verify.ExitInSummary rs => ExitInSummary rs
  end.

(** The [verificationResults] array at the end of the loop, if [main] got
    that far. *)
Definition accumulated (e : Ending) : option (list VerificationResult) :=
  match e with
  | Summarised rs _ | ExitInSummary rs => Some rs
  | ExitInSetup | ExitListingFolders _ | NothingToVerify | ExitInLoop _ _ =>
      None
  end.

(** The process exits with code one. *)
Definition exitsWithOne (e : Ending) : bool :=
  match e with
  | ExitInSetup | ExitListingFolders _ | ExitInLoop _ _ | ExitInSummary _ =>
      true
  | NothingToVerify | Summarised _ _ => false
  end.

(** A loop whose body may throw: the first throw ends it. *)
Fixpoint forOfTry {A B S : Type} (body : A -> S -> IO (Try B * S))
         (xs : list A) (s : S) : IO (Try unit * S) :=
  match xs with
  | [] => ret (Done tt, s)
  | x :: rest =>
      done <- body x s ;;
      match fst done with
      | Failed message => ret (Failed message, snd done)
      | Done _ => forOfTry body rest (snd done)
      end
  end.

Section Run.

Variable disk : Disk.
Variable shell : string -> Completion.

(** [verifyContribution]; the [results] array is returned also when the
    call throws. *)
Definition verifyContribution
           (contributionFolder initialFolder ptauFile : string)
           (results : list VerificationResult)
  : IO (Try bool * list VerificationResult) :=
  console_log (LF ++ "Verifying contributions in " ++ contributionFolder
                  ++ "...") ;;;
  match getZkeyFiles disk contributionFolder with
  | Failed message => ret (Failed message, results)
  | Done contributionZkeyFiles =>
      if Nat.eqb (List.length contributionZkeyFiles) 0 then
        console_error ("No .zkey files found in " ++ contributionFolder) ;;;
        ret (Done false, results)
      else
        match getZkeyFiles disk initialFolder with
        | Failed message => ret (Failed message, results)
        | Done initialZkeyFiles =>
            if Nat.eqb (List.length initialZkeyFiles) 0 then
              console_error ("No .zkey files found in " ++ initialFolder) ;;;
              ret (Done false, results)
            else
              done <- forOf (verifyArtifact shell contributionFolder
                                            initialFolder ptauFile
                                            initialZkeyFiles)
                            contributionZkeyFiles (true, results) ;;
              ret (Done (fst done), snd done)
        end
  end.

(** [main] from line 181 on, given how the set-up went.  The [catch]
    block writes the message of the error a listing threw; the console
    lines of the set-up, and the line for a [TypeError] of the summary,
    whose text is the engine's, are not recorded. *)
Definition main (setup : Setup) : IO Ending :=
  match setup with
  | SetupThrows => ret ExitInSetup
  | SetupDone ptauFile =>
      match getContributionFolders disk with
      | Failed message =>
          console_error ("Error: " ++ message) ;;;
          ret (ExitListingFolders message)
      | Done contributionFolders =>
          console_log ("Found " ++ Js.ofNat (List.length contributionFolders)
                                ++ " contributions") ;;;
          if Nat.ltb (List.length contributionFolders) 2 then
            console_log "At least two contributions are needed for verification." ;;;
            console_log "There's only the initial setup folder. Nothing to verify yet." ;;;
            ret NothingToVerify
          else
            let initialFolder := nth 0 contributionFolders "" in
            looped <-
              forOfTry (fun i verificationResults =>
                          let currentFolder := nth i contributionFolders "" in
                          verifyContribution currentFolder initialFolder
                                             ptauFile verificationResults)
                       (seq 1 (List.length contributionFolders - 1)) [] ;;
            match fst looped with
            | Failed message =>
                console_error ("Error: " ++ message) ;;;
                ret (ExitInLoop (snd looped) message)
            | Done _ =>
                match printResultsTable (snd looped) with
                | Some table => ret (Summarised (snd looped) table)
                | None => ret (ExitInSummary (snd looped))
                end
            end
      end
  end.

End Run.

End OnDisk.

(** ** Sample ceremonies *)

Module Samples.

Import Verify.

Definition file (n : string) : Dirent := {| name := n; isDirectory := false |}.
Definition dir (n : string) : Dirent := {| name := n; isDirectory := true |}.

Definition ptau : string := "pot.ptau".

Definition freshWorld : World := {| console := []; spawned := [] |}.

(** A baseline and two contributions; alice brings a circuit the baseline
    does not have, bob leaves one out. *)
Definition ceremony : FileSystem := fun p =>
  if String.eqb p "./contributions" then
    [dir "0002_bob"; dir "0000_initial"; file "0003_notes"; dir "0001_alice";
     dir "drafts"]
  else if String.eqb p "contributions/0000_initial" then
    [file "A.zkey"; file "B.zkey"; file "circuits.r1cs"]
  else if String.eqb p "contributions/0001_alice" then
    [file "A.zkey"; file "C.zkey"]
  else if String.eqb p "contributions/0002_bob" then
    [file "A.zkey"]
  else [].

(** The verifier rejects alice's contribution and accepts every other. *)
Definition rejectAlice : string -> Completion := fun command =>
  if String.eqb command
       (zkviCommand "contributions/0000_initial/A.zkey" ptau
                    "contributions/0001_alice/A.zkey")
  then Throws (ErrorObject "Command failed: snarkjs zkvi")
  else Normal.

Definition acceptAll : string -> Completion := fun _ => Normal.


(** A contribution folder that holds no parameter file, and one after it
    that does. *)
Definition emptyContribution : FileSystem := fun p =>
  if String.eqb p "./contributions" then
    [dir "0000_initial"; dir "0001_alice"; dir "0002_bob"]
  else if String.eqb p "contributions/0000_initial" then
    [file "A.zkey"; file "circuits.r1cs"]
  else if String.eqb p "contributions/0001_alice" then [file "notes.txt"]
  else if String.eqb p "contributions/0002_bob" then [file "A.zkey"]
  else [].

(** Three folders with the same single circuit. *)
Definition threeFolders : FileSystem := fun p =>
  if String.eqb p "./contributions" then
    [dir "0000_initial"; dir "0001_alice"; dir "0002_bob"]
  else if String.eqb p "contributions/0000_initial" then
    [file "A.zkey"; file "circuits.r1cs"]
  else if String.eqb p "contributions/0001_alice" then [file "A.zkey"]
  else if String.eqb p "contributions/0002_bob" then [file "A.zkey"]
  else [].

(** Only the baseline is there. *)
Definition baselineOnly : FileSystem := fun p =>
  if String.eqb p "./contributions" then [dir "0000_initial"]
  else if String.eqb p "contributions/0000_initial" then
    [file "A.zkey"; file "circuits.r1cs"]
  else [].

(** Outcomes listed with the later folder first. *)
Definition laterFolderFirst : list VerificationResult :=
  [ {| contributionFolder := "0002_bob"; circuitName := "A";
       success := true; errorMessage := None |};
    {| contributionFolder := "0001_alice"; circuitName := "A";
       success := true; errorMessage := None |} ].

(** The same ceremony with the directories listed the other way round. *)
Definition ceremonyReversed : FileSystem := fun p => rev (ceremony p).

(** A command line on which only the version probe works. *)
Definition copyFails : string -> Completion := fun command =>
  if String.eqb command "aws --version" then Normal
  else Throws (ErrorObject "Command failed").

Definition noOutput : string -> string := fun _ => "".

(** A command line whose version probe works once: any command spawned
    after another one fails. *)
Definition probeWorksOnce : list string -> string -> Completion :=
  fun before _ =>
    match before with
    | [] => Normal
    | _ :: _ => Throws (ErrorObject "spawnSync /bin/sh EAGAIN")
    end.


(** A disk without the baseline folder. *)
Definition noBaseline : OnDisk.Disk := fun p =>
  if String.eqb p "./contributions" then OnDisk.Listed []
  else
    OnDisk.Unreadable
      ("ENOENT: no such file or directory, scandir '" ++ p ++ "'").

Definition plainInspect : Thrown -> string := fun error =>
  match error with
  | ErrorObject message => "Error: " ++ message
  | NonError => "undefined"
  end.

End Samples.

(** * Properties *)

Import Verify Chain.

(** ** Lexical order and [sort] *)

Lemma ascii_compare_nat (a b : ascii) :
  Ascii.compare a b = Nat.compare (nat_of_ascii a) (nat_of_ascii b).
Proof.
  unfold Ascii.compare, nat_of_ascii.
  now rewrite Nnat.N2Nat.inj_compare.
Qed.

Lemma string_compare_refl (s : string) : String.compare s s = Eq.
Proof.
  induction s as [|c s IH]; simpl; [reflexivity|].
  rewrite ascii_compare_nat, Nat.compare_refl. exact IH.
Qed.

Lemma string_compare_lt_trans (a b c : string) :
  String.compare a b = Lt -> String.compare b c = Lt -> String.compare a c = Lt.
Proof.
  revert b c. induction a as [|x a IH]; intros [|y b] [|z c]; simpl;
    try congruence.
  rewrite !ascii_compare_nat.
  destruct (Nat.compare_spec (nat_of_ascii x) (nat_of_ascii y)) as [Hxy|Hxy|Hxy];
    destruct (Nat.compare_spec (nat_of_ascii y) (nat_of_ascii z)) as [Hyz|Hyz|Hyz];
    try congruence; intros H1 H2.
  - rewrite Hxy, Hyz, Nat.compare_refl. eauto.
  - rewrite Hxy. apply Nat.compare_lt_iff in Hyz. now rewrite Hyz.
  - rewrite <- Hyz. apply Nat.compare_lt_iff in Hxy. now rewrite Hxy.
  - assert (Hxz : nat_of_ascii x < nat_of_ascii z) by lia.
    apply Nat.compare_lt_iff in Hxz. now rewrite Hxz.
Qed.

Lemma lexLe_iff (a b : string) :
  lexLe a b <-> String.compare a b = Lt \/ a = b.
Proof.
  unfold lexLe, String.leb. split.
  - destruct (String.compare a b) eqn:E; try discriminate; intros _.
    + right. now apply String.compare_eq_iff.
    + now left.
  - intros [H | ->]; [now rewrite H | now rewrite string_compare_refl].
Qed.

Lemma lexLe_trans (a b c : string) : lexLe a b -> lexLe b c -> lexLe a c.
Proof.
  rewrite !lexLe_iff. intros [H1 | ->] [H2 | ->]; auto.
  left. eapply string_compare_lt_trans; eauto.
Qed.

Lemma lexLe_false (a b : string) : String.leb a b = false -> lexLe b a.
Proof.
  intros H. destruct (String.leb_total a b) as [E | E]; [congruence | exact E].
Qed.

Lemma insertSorted_perm (x : string) (l : list string) :
  Permutation (Js.insertSorted x l) (x :: l).
Proof.
  induction l as [|y l IH]; simpl; [reflexivity|].
  destruct (String.leb x y); [reflexivity|].
  rewrite IH. apply perm_swap.
Qed.

Lemma sort_perm (l : list string) : Permutation (Js.sort l) l.
Proof.
  induction l as [|x l IH]; simpl; [constructor|].
  unfold Js.sort in *. simpl. rewrite insertSorted_perm. now constructor.
Qed.

Lemma insertSorted_sorted (x : string) (l : list string) :
  StronglySorted lexLe l -> StronglySorted lexLe (Js.insertSorted x l).
Proof.
  induction 1 as [|y l Hs IH Hy]; simpl.
  - repeat constructor.
  - destruct (String.leb x y) eqn:E.
    + constructor; [now constructor|].
      constructor; [exact E|].
      eapply Forall_impl; [|exact Hy]. intros z Hz.
      eapply lexLe_trans; eauto.
    + constructor; [exact IH|].
      eapply Permutation_Forall; [symmetry; apply insertSorted_perm|].
      constructor; [now apply lexLe_false | exact Hy].
Qed.

Lemma sort_sorted (l : list string) : StronglySorted lexLe (Js.sort l).
Proof.
  induction l as [|x l IH]; [constructor|].
  unfold Js.sort in *. simpl. now apply insertSorted_sorted.
Qed.

(** Two sorted lists with the same elements are the same list. *)
Lemma sorted_perm_unique (l1 l2 : list string) :
  StronglySorted lexLe l1 -> StronglySorted lexLe l2 ->
  Permutation l1 l2 -> l1 = l2.
Proof.
  intros H1. revert l2. induction H1 as [|x l1 Hs IH Hx]; intros l2 H2 HP.
  - now apply Permutation_nil in HP.
  - destruct H2 as [|y l2 Hs2 Hy].
    + symmetry in HP. now apply Permutation_nil in HP.
    + assert (x = y) as ->.
      { assert (In x (y :: l2)) as [-> | Hin]
          by (eapply Permutation_in; [exact HP | now left]); [reflexivity|].
        assert (In y (x :: l1)) as [-> | Hin']
          by (eapply Permutation_in; [symmetry; exact HP | now left]);
          [reflexivity|].
        rewrite Forall_forall in Hx, Hy.
        apply String.leb_antisym; [now apply Hx | now apply Hy]. }
      f_equal. apply IH; [exact Hs2|]. eapply Permutation_cons_inv; eauto.
Qed.

(** Any algorithm that returns a sorted arrangement of its input returns
    what [Js.sort] returns. *)
Lemma sort_unique (l sorted : list string) :
  Permutation sorted l -> StronglySorted lexLe sorted -> sorted = Js.sort l.
Proof.
  intros Hperm Hsorted. apply sorted_perm_unique.
  - exact Hsorted.
  - apply sort_sorted.
  - rewrite Hperm. symmetry. apply sort_perm.
Qed.

(** ** The model at work on the sample ceremony *)

Example join_contribution_path :
  Path.join [Utils.contributionRootFolder; "0001_alice"; "A.zkey"]
  = "contributions/0001_alice/A.zkey".
Proof. reflexivity. Qed.

Example basename_strips_extension :
  Path.basename "circuitA.zkey" (Some ".zkey") = "circuitA"
  /\ Path.basename "contributions/0001_alice/A.zkey" None = "A.zkey".
Proof. split; reflexivity. Qed.

Example ceremony_folders :
  Utils.getContributionFolders Samples.ceremony
  = ["0000_initial"; "0001_alice"; "0002_bob"].
Proof. reflexivity. Qed.

Example ceremony_run :
  main Samples.ceremony Samples.rejectAlice (SetupDone Samples.ptau)
       Samples.freshWorld
  = (Summarised
       [ {| contributionFolder := "0001_alice"; circuitName := "A";
            success := false;
            errorMessage := Some "Command failed: snarkjs zkvi" |};
         {| contributionFolder := "0001_alice"; circuitName := "C";
            success := false;
            errorMessage := Some "Missing initial zkey file" |};
         {| contributionFolder := "0002_bob"; circuitName := "A";
            success := true; errorMessage := None |} ]
       {| allCircuits := ["A"; "C"];
          rows := [("0001_alice", [FAIL; FAIL]); ("0002_bob", [PASS; NA])];
          totalTests := 3;
          passedTests := 1;
          failedTests := 2;
          failedVerifications :=
            [("0001_alice", "A", "Command failed: snarkjs zkvi");
             ("0001_alice", "C", "Missing initial zkey file")] |},
     {| console :=
          [(Stdout, "Found 3 contributions");
           (Stdout, LF ++ "Verifying contributions in 0001_alice...");
           (Stdout, LF ++ "Verifying A.zkey using initial zkey file...");
           (Stderr, "❌ Failed to verify A.zkey");
           (Stderr, "Command failed: snarkjs zkvi");
           (Stderr, "❌ Could not find matching initial zkey file for C.zkey");
           (Stdout, LF ++ "Verifying contributions in 0002_bob...");
           (Stdout, LF ++ "Verifying A.zkey using initial zkey file...");
           (Stdout, "✅ A.zkey verification successful!")];
        spawned :=
          [zkviCommand "contributions/0000_initial/A.zkey" Samples.ptau
                       "contributions/0001_alice/A.zkey";
           zkviCommand "contributions/0000_initial/A.zkey" Samples.ptau
                       "contributions/0002_bob/A.zkey"] |}).
Proof. vm_compute. reflexivity. Qed.

(** A circuit named like a member of [Object.prototype] makes the summary
    throw for a folder that does not have it. *)
Example summary_throws_on_inherited_name :
  printResultsTable
    [ {| contributionFolder := "0001_alice"; circuitName := "constructor";
         success := true; errorMessage := None |};
      {| contributionFolder := "0002_bob"; circuitName := "A";
         success := true; errorMessage := None |} ]
  = None.
Proof. reflexivity. Qed.

(** ** The artifact locator *)

Lemma isDigit_bounds (c : ascii) :
  Js.isDigit c = true -> 48 <= nat_of_ascii c <= 57.
Proof.
  unfold Js.isDigit. rewrite andb_true_iff, !Nat.leb_le. tauto.
Qed.

Lemma matchesOrdinalPrefix_inv (f : string) :
  Utils.matchesOrdinalPrefix f = true ->
  exists d1 d2 d3 d4 rest,
    f = String d1 (String d2 (String d3 (String d4 (String "_" rest))))
    /\ Js.isDigit d1 = true /\ Js.isDigit d2 = true
    /\ Js.isDigit d3 = true /\ Js.isDigit d4 = true.
Proof.
  destruct f as [|d1 [|d2 [|d3 [|d4 [|u rest]]]]]; simpl; try discriminate.
  rewrite !andb_true_iff, Ascii.eqb_eq. intros [[[[H1 H2] H3] H4] ->].
  exists d1, d2, d3, d4, rest. auto.
Qed.

(** On names with a four-digit prefix the lexical order is the order of the
    ordinals. *)
Lemma ordinal_order (a b : string) :
  Utils.matchesOrdinalPrefix a = true ->
  Utils.matchesOrdinalPrefix b = true ->
  (lexLe a b -> ordinalOf a <= ordinalOf b)
  /\ (ordinalOf a < ordinalOf b -> String.ltb a b = true).
Proof.
  intros Ha Hb.
  destruct (matchesOrdinalPrefix_inv a Ha)
    as (a1 & a2 & a3 & a4 & ra & -> & A1 & A2 & A3 & A4).
  destruct (matchesOrdinalPrefix_inv b Hb)
    as (b1 & b2 & b3 & b4 & rb & -> & B1 & B2 & B3 & B4).
  apply isDigit_bounds in A1, A2, A3, A4, B1, B2, B3, B4.
  unfold lexLe, String.leb, String.ltb, ordinalOf, digitValue.
  cbn [String.compare]. rewrite !ascii_compare_nat.
  destruct (Nat.compare_spec (nat_of_ascii a1) (nat_of_ascii b1));
    [destruct (Nat.compare_spec (nat_of_ascii a2) (nat_of_ascii b2));
     [destruct (Nat.compare_spec (nat_of_ascii a3) (nat_of_ascii b3));
      [destruct (Nat.compare_spec (nat_of_ascii a4) (nat_of_ascii b4))|..]
     |..]
    |..];
    split; intros; try reflexivity; try discriminate; try lia.
Qed.

Lemma filter_none {A : Type} (p : A -> bool) (l : list A) :
  (forall x, In x l -> p x = false) -> filter p l = [].
Proof.
  induction l as [|x l IH]; simpl; intros H; [reflexivity|].
  rewrite (H x (or_introl eq_refl)). apply IH. intros y Hy. apply H. now right.
Qed.

Lemma getContributionFolders_match (fs : FileSystem) (f : string) :
  In f (Utils.getContributionFolders fs) -> Utils.matchesOrdinalPrefix f = true.
Proof.
  unfold Utils.getContributionFolders. intros H.
  eapply Permutation_in in H; [|apply sort_perm].
  now apply filter_In in H.
Qed.

(** C7: [getContributionFolders] returns exactly the directory names that
    start with four digits and an underscore, sorted lexically ascending; it
    returns the empty list when no name matches; and on such names the
    lexical order is the numeric order of the four-digit ordinals, so the
    returned list is also ascending by ordinal. *)
Theorem getContributionFolders_sorted_by_ordinal :
  forall fs : FileSystem,
    let listed := Utils.getDirectories fs Utils.contributionRootFolder in
    let folders := Utils.getContributionFolders fs in
    Permutation folders (filter Utils.matchesOrdinalPrefix listed)
    /\ StronglySorted lexLe folders
    /\ ((forall f, In f listed -> Utils.matchesOrdinalPrefix f = false) ->
        folders = [])
    /\ (forall a b,
           Utils.matchesOrdinalPrefix a = true ->
           Utils.matchesOrdinalPrefix b = true ->
           (lexLe a b -> ordinalOf a <= ordinalOf b)
           /\ (ordinalOf a < ordinalOf b -> String.ltb a b = true))
    /\ StronglySorted (fun a b => ordinalOf a <= ordinalOf b) folders.
Proof.
  intros fs listed folders.
  assert (Hsorted : StronglySorted lexLe folders) by apply sort_sorted.
  split; [apply sort_perm|].
  split; [exact Hsorted|].
  split.
  { intros Hnone. unfold folders, Utils.getContributionFolders.
    fold listed. now rewrite (filter_none _ _ Hnone). }
  split; [intros a b; apply ordinal_order|].
  assert (Hall : Forall (fun f => Utils.matchesOrdinalPrefix f = true) folders).
  { apply Forall_forall. intros f. apply getContributionFolders_match. }
  induction Hsorted as [|x l Hs IH Hx]; constructor.
  - apply IH. now inversion Hall.
  - inversion Hall as [|? ? Hmx Hml]; subst.
    rewrite Forall_forall in *. intros y Hy.
    apply (ordinal_order x y); auto.
Qed.

(** ** Running the adapter, the pair matcher and the chain driver *)

Section Runs.

Variable fs : FileSystem.
Variable shell : string -> Completion.

Lemma getZkeyFiles_nonempty_name (folder file : string) :
  In file (Utils.getZkeyFiles fs folder) -> file <> "".
Proof.
  unfold Utils.getZkeyFiles. intros H. apply filter_In in H.
  destruct H as [_ H]. intros ->. discriminate H.
Qed.

Lemma verifyZkeyContribution_run (initialZkeyFile ptauFile contributionZkeyFile : string)
      (w : World) :
  exists w',
    verifyZkeyContribution shell initialZkeyFile ptauFile contributionZkeyFile w
    = (verdictOf
         (shell (zkviCommand initialZkeyFile ptauFile contributionZkeyFile)), w')
    /\ spawned w'
       = (spawned w
            ++ [zkviCommand initialZkeyFile ptauFile contributionZkeyFile])%list.
Proof.
  unfold verifyZkeyContribution, bind, execSync.
  destruct (shell _) as [|[message|]]; cbn; eexists; split; reflexivity.
Qed.

Lemma find_namesake (files : list string) (zkeyFile : string) :
  find (fun file => String.eqb file zkeyFile) files
  = if existsb (String.eqb zkeyFile) files then Some zkeyFile else None.
Proof.
  induction files as [|f files IH]; simpl; [reflexivity|].
  rewrite (String.eqb_sym zkeyFile f).
  destruct (String.eqb_spec f zkeyFile) as [-> | _]; [reflexivity | exact IH].
Qed.

Lemma verifyArtifact_run (ptauFile initialFolder contributionFolder zkeyFile : string)
      (allSuccessful : bool) (results : list VerificationResult) (w : World) :
  zkeyFile <> "" ->
  let outcome := outcomeOf fs shell ptauFile initialFolder contributionFolder zkeyFile in
  exists w',
    verifyArtifact shell contributionFolder initialFolder ptauFile
                   (Utils.getZkeyFiles fs initialFolder) zkeyFile
                   (allSuccessful, results) w
    = ((allSuccessful && success outcome, (results ++ [outcome])%list), w')
    /\ spawned w'
       = (spawned w
            ++ (if isMatched fs initialFolder zkeyFile
                then [pairCommand ptauFile initialFolder contributionFolder zkeyFile]
                else []))%list.
Proof.
  intros Hne outcome. subst outcome.
  unfold verifyArtifact, outcomeOf, isMatched. rewrite find_namesake.
  destruct (existsb _ _).
  - apply String.eqb_neq in Hne. rewrite Hne.
    unfold bind at 1. cbn [console_log].
    unfold bind at 1.
    match goal with
    | |- context [verifyZkeyContribution shell ?a ?p ?c ?w0] =>
        destruct (verifyZkeyContribution_run a p c w0) as (w' & E & Hs)
    end.
    rewrite E. exists w'. split; [reflexivity|]. exact Hs.
  - unfold bind, console_error, ret. cbn. eexists. split.
    + now rewrite andb_false_r.
    + cbn. now rewrite app_nil_r.
Qed.

Lemma verifyArtifacts_run (ptauFile initialFolder contributionFolder : string)
      (files : list string) :
  Forall (fun file => file <> "") files ->
  forall (allSuccessful : bool) (results : list VerificationResult) (w : World),
    let outcomes :=
      map (outcomeOf fs shell ptauFile initialFolder contributionFolder) files in
    exists w',
      forOf (verifyArtifact shell contributionFolder initialFolder ptauFile
                            (Utils.getZkeyFiles fs initialFolder))
            files (allSuccessful, results) w
      = ((allSuccessful && forallb success outcomes,
          (results ++ outcomes)%list), w')
      /\ spawned w'
         = (spawned w
              ++ map (pairCommand ptauFile initialFolder contributionFolder)
                     (filter (isMatched fs initialFolder) files))%list.
Proof.
  induction 1 as [|file files Hfile _ IH]; intros allSuccessful results w;
    cbn [forOf map filter forallb].
  - exists w. unfold ret. now rewrite andb_true_r, !app_nil_r.
  - unfold bind at 1.
    destruct (verifyArtifact_run ptauFile initialFolder contributionFolder file
                                 allSuccessful results w Hfile)
      as (w1 & E1 & S1).
    cbv zeta in E1. rewrite E1.
    destruct (IH (allSuccessful
                  && success (outcomeOf fs shell ptauFile initialFolder
                                        contributionFolder file))
                 (results ++ [outcomeOf fs shell ptauFile initialFolder
                                        contributionFolder file])%list w1)
      as (w2 & E2 & S2).
    cbv zeta in E2. rewrite E2. exists w2. split.
    + now rewrite <- app_assoc, andb_assoc.
    + rewrite S2, S1, <- app_assoc. f_equal.
      destruct (isMatched fs initialFolder file); reflexivity.
Qed.

Lemma verifyContribution_run (ptauFile initialFolder contributionFolder : string)
      (results : list VerificationResult) (w : World) :
  exists allSuccessful w',
    verifyContribution fs shell contributionFolder initialFolder ptauFile
                       results w
    = ((allSuccessful,
        (results ++ folderOutcomes fs shell ptauFile initialFolder
                                   contributionFolder)%list), w')
    /\ spawned w'
       = (spawned w
            ++ folderCommands fs ptauFile initialFolder contributionFolder)%list.
Proof.
  unfold verifyContribution, folderOutcomes, folderCommands, folderSkipped,
    artifactOutcomes, artifactCommands.
  unfold bind at 1. cbn [console_log].
  destruct (Utils.getZkeyFiles fs contributionFolder) as [|file files] eqn:Ec.
  - cbn. do 2 eexists. split; [now rewrite app_nil_r|]. cbn. now rewrite app_nil_r.
  - cbn [List.length Nat.eqb].
    destruct (Utils.getZkeyFiles fs initialFolder) as [|ifile ifiles] eqn:Ei.
    + cbn. do 2 eexists. split; [now rewrite app_nil_r|]. cbn.
      now rewrite app_nil_r.
    + cbn [List.length Nat.eqb]. rewrite <- Ei, <- Ec.
      match goal with
      | |- context [forOf _ _ _ ?w0] =>
          destruct (verifyArtifacts_run ptauFile initialFolder contributionFolder
                      (Utils.getZkeyFiles fs contributionFolder)
                      ltac:(apply Forall_forall; intros f Hf;
                            eapply getZkeyFiles_nonempty_name; eauto)
                      true results w0)
            as (w' & E & S)
      end.
      cbv zeta in E. rewrite E. do 2 eexists. split; [reflexivity|].
      exact S.
Qed.

Lemma chainLoop_run (ptauFile initialFolder : string) (folders : list string) :
  forall (results : list VerificationResult) (w : World),
  exists w',
    forOf (chainStep fs shell ptauFile initialFolder) folders results w
    = ((results ++ chainOutcomes fs shell ptauFile initialFolder folders)%list,
       w')
    /\ spawned w'
       = (spawned w ++ chainCommands fs ptauFile initialFolder folders)%list.
Proof.
  induction folders as [|folder folders IH]; intros results w;
    cbn [forOf chainOutcomes chainCommands flat_map].
  - exists w. unfold ret. now rewrite !app_nil_r.
  - unfold bind at 1. unfold chainStep at 1. unfold bind at 1.
    destruct (verifyContribution_run ptauFile initialFolder folder results w)
      as (ok & w1 & E1 & S1).
    rewrite E1. cbn [ret snd].
    destruct (IH (results ++ folderOutcomes fs shell ptauFile initialFolder
                                            folder)%list w1)
      as (w2 & E2 & S2).
    rewrite E2. exists w2. split.
    + now rewrite <- app_assoc.
    + now rewrite S2, S1, <- app_assoc.
Qed.


Lemma forOf_map {A B S : Type} (f : A -> B) (body : B -> S -> IO S)
      (xs : list A) :
  forall (s : S) (w : World),
    forOf (fun x => body (f x)) xs s w = forOf body (map f xs) s w.
Proof.
  induction xs as [|x xs IH]; intros s w; cbn [forOf map]; [reflexivity|].
  unfold bind. destruct (body (f x) s w) as [s' w']. apply IH.
Qed.

Lemma nth_indices_from {A : Type} (d : A) (l : list A) :
  forall before : list A,
    map (fun i => nth i (before ++ l)%list d)
        (seq (List.length before) (List.length l)) = l.
Proof.
  induction l as [|x l IH]; intros before; cbn [List.length seq map];
    [reflexivity|].
  f_equal.
  - now rewrite nth_middle.
  - specialize (IH (before ++ [x])%list).
    rewrite <- app_assoc, length_app in IH. cbn in IH.
    now rewrite Nat.add_1_r in IH.
Qed.

Lemma nth_indices_tail {A : Type} (d : A) (l : list A) :
  map (fun i => nth i l d) (seq 1 (List.length l - 1)) = tl l.
Proof.
  destruct l as [|x l]; [reflexivity|].
  cbn [List.length tl]. rewrite Nat.sub_succ, Nat.sub_0_r.
  exact (nth_indices_from d l [x]).
Qed.

Lemma main_run (ptauFile : string) (w : World) :
  let folders := Utils.getContributionFolders fs in
  2 <= List.length folders ->
  exists ending w',
    main fs shell (SetupDone ptauFile) w = (ending, w')
    /\ accumulated ending
       = Some (chainOutcomes fs shell ptauFile (nth 0 folders "") (tl folders))
    /\ spawned w'
       = (spawned w ++ chainCommands fs ptauFile (nth 0 folders "")
                                     (tl folders))%list.
Proof.
  intros folders Hlen. unfold main. fold folders.
  unfold bind at 1. cbn [console_log].
  destruct (Nat.ltb_spec (List.length folders) 2) as [Hlt | _]; [lia|].
  unfold bind at 1.
  rewrite (forOf_map (fun i => nth i folders "")
                     (chainStep fs shell ptauFile (nth 0 folders ""))).
  rewrite nth_indices_tail.
  match goal with
  | |- context [forOf _ _ _ ?w0] =>
      destruct (chainLoop_run ptauFile (nth 0 folders "") (tl folders) [] w0)
        as (w' & E & S)
  end.
  rewrite E. cbn [app].
  destruct (printResultsTable _) as [table|]; cbn [ret];
    do 2 eexists; (split; [reflexivity|]); split; try reflexivity; exact S.
Qed.

End Runs.

Lemma main_nothing_to_verify (fs : FileSystem) (shell : string -> Completion)
      (ptauFile : string) (w : World) :
  List.length (Utils.getContributionFolders fs) < 2 ->
  main fs shell (SetupDone ptauFile) w
  = (NothingToVerify,
     {| console :=
          (console w
             ++ [(Stdout,
                  ("Found "
                    ++ Js.ofNat (List.length (Utils.getContributionFolders fs))
                    ++ " contributions")%string);
                 (Stdout,
                  "At least two contributions are needed for verification.");
                 (Stdout,
                  "There's only the initial setup folder. Nothing to verify yet.")
                ])%list;
        spawned := spawned w |}).
Proof.
  intros Hlen. unfold main. unfold bind at 1. cbn [console_log].
  destruct (Nat.ltb_spec (List.length (Utils.getContributionFolders fs)) 2)
    as [_ | Hge]; [|lia].
  unfold bind, console_log, ret. cbn. now rewrite <- !app_assoc.
Qed.

Lemma folderOutcomes_folder (fs : FileSystem) (shell : string -> Completion)
      (ptauFile initialFolder folder : string) :
  Forall (fun r => contributionFolder r = folder)
         (folderOutcomes fs shell ptauFile initialFolder folder).
Proof.
  unfold folderOutcomes, artifactOutcomes.
  destruct (folderSkipped _ _ _); [constructor|].
  apply Forall_forall. intros r Hr. apply in_map_iff in Hr.
  destruct Hr as (file & <- & _). unfold outcomeOf.
  now destruct (isMatched _ _ _).
Qed.

(** ** The external verifier adapter *)

(** C6: one call of the adapter spawns the verifier exactly once; the
    verdict is success when the command completes normally, failure with the
    message of the caught [Error] when it throws one, and failure with the
    text "Unknown error" when what it throws is not an [Error]. *)
Theorem verifyZkeyContribution_single_invocation :
  forall (shell : string -> Completion)
         (initialZkeyFile ptauFile contributionZkeyFile : string) (w : World),
    let command := zkviCommand initialZkeyFile ptauFile contributionZkeyFile in
    let run :=
      verifyZkeyContribution shell initialZkeyFile ptauFile
                             contributionZkeyFile w in
    spawned (snd run) = (spawned w ++ [command])%list
    /\ fst run
       = match shell command with
         | Normal =>
             {| verdictSuccess := true; verdictErrorMessage := None |}
         | Throws (ErrorObject message) =>
             {| verdictSuccess := false; verdictErrorMessage := Some message |}
         | Throws NonError =>
             {| verdictSuccess := false;
                verdictErrorMessage := Some "Unknown error" |}
         end.
Proof.
  intros shell a p c w command run.
  destruct (verifyZkeyContribution_run shell a p c w) as (w' & E & S).
  subst run command. rewrite E. split; [exact S | reflexivity].
Qed.

(** ** The chain driver *)




Lemma nth_tail_position {A : Type} (d x : A) (l : list A) :
  In x (tl l) -> exists i, 1 <= i < List.length l /\ nth i l d = x.
Proof.
  destruct l as [|y l]; cbn [tl]; [contradiction|]. intros Hx.
  destruct (In_nth l x d Hx) as (n & Hn & E).
  exists (S n). cbn. split; [lia | exact E].
Qed.

(** C2, as stated, fails: in a chain of three folders the artifact of the
    third is handed to the verifier together with its namesake in the
    first folder, not with the one in the second. *)
Lemma predecessor_pairing_fails :
  let folders := Utils.getContributionFolders Samples.threeFolders in
  let run :=
    main Samples.threeFolders Samples.acceptAll (SetupDone Samples.ptau)
         Samples.freshWorld in
  spawned (snd run)
  = [ zkviCommand "contributions/0000_initial/A.zkey" Samples.ptau
                  "contributions/0001_alice/A.zkey";
      zkviCommand "contributions/0000_initial/A.zkey" Samples.ptau
                  "contributions/0002_bob/A.zkey" ]
  /\ predecessorCommands Samples.threeFolders Samples.ptau folders
     = [ zkviCommand "contributions/0000_initial/A.zkey" Samples.ptau
                     "contributions/0001_alice/A.zkey";
         zkviCommand "contributions/0001_alice/A.zkey" Samples.ptau
                     "contributions/0002_bob/A.zkey" ]
  /\ spawned (snd run)
     <> predecessorCommands Samples.threeFolders Samples.ptau folders.
Proof.
  cbv zeta. repeat split; try (vm_compute; reflexivity).
  vm_compute. discriminate.
Qed.

(** C2, amended: every contribution is checked against the baseline, not
    against its predecessor.  The commands a run spawns are, folder by
    folder from position one on, one per artifact that has a namesake in the
    folder at position zero; each hands the verifier that namesake, the
    public-parameters file and the artifact of the folder, in this order. *)
Theorem verification_pairs_with_baseline :
  forall (fs : FileSystem) (shell : string -> Completion) (ptauFile : string)
         (w : World),
    let folders := Utils.getContributionFolders fs in
    let baseline := nth 0 folders "" in
    let run := main fs shell (SetupDone ptauFile) w in
    exists commands,
      spawned (snd run) = (spawned w ++ commands)%list
      /\ commands = chainCommands fs ptauFile baseline (tl folders)
      /\ forall command,
           In command commands ->
           exists i zkeyFile,
             1 <= i < List.length folders
             /\ In zkeyFile (Utils.getZkeyFiles fs (nth i folders ""))
             /\ In zkeyFile (Utils.getZkeyFiles fs baseline)
             /\ command
                = zkviCommand
                    (Path.join [Utils.contributionRootFolder; baseline;
                                zkeyFile])
                    ptauFile
                    (Path.join [Utils.contributionRootFolder;
                                nth i folders ""; zkeyFile]).
Proof.
  intros fs shell ptauFile w folders baseline run.
  exists (chainCommands fs ptauFile baseline (tl folders)).
  split; [|split; [reflexivity|]].
  - subst run. destruct (Nat.lt_ge_cases (List.length folders) 2) as [Hlt | Hge].
    + rewrite (main_nothing_to_verify fs shell ptauFile w Hlt). cbn [snd spawned].
      fold folders. destruct folders as [|b [|c rest]]; cbn in Hlt; try lia;
        cbn; now rewrite app_nil_r.
    + destruct (main_run fs shell ptauFile w Hge) as (ending & w' & E & _ & S).
      rewrite E. exact S.
  - intros command Hc. unfold chainCommands in Hc. apply in_flat_map in Hc.
    destruct Hc as (folder & Hfolder & Hc).
    destruct (nth_tail_position "" folder folders Hfolder) as (i & Hi & <-).
    unfold folderCommands, artifactCommands in Hc.
    destruct (folderSkipped _ _ _); [contradiction|].
    apply in_map_iff in Hc. destruct Hc as (zkeyFile & <- & Hz).
    apply filter_In in Hz. destruct Hz as [Hz Hm].
    exists i, zkeyFile. repeat split; try lia; try exact Hz.
    unfold isMatched in Hm. apply existsb_exists in Hm.
    destruct Hm as (f & Hf & Heq). apply String.eqb_eq in Heq. now subst f.
Qed.

(** C8: with fewer than two folders the run ends without error and without
    an outcome: it says that there is nothing to verify and spawns no
    command. *)
Theorem nothing_to_verify_below_two_folders :
  forall (fs : FileSystem) (shell : string -> Completion) (ptauFile : string)
         (w : World),
    let folders := Utils.getContributionFolders fs in
    let run := main fs shell (SetupDone ptauFile) w in
    List.length folders < 2 ->
    fst run = NothingToVerify
    /\ outcomes (fst run) = []
    /\ spawned (snd run) = spawned w
    /\ console (snd run)
       = (console w
            ++ [(Stdout,
                 ("Found " ++ Js.ofNat (List.length folders)
                           ++ " contributions")%string);
                (Stdout,
                 "At least two contributions are needed for verification.");
                (Stdout,
                 "There's only the initial setup folder. Nothing to verify yet.")
               ])%list.
Proof.
  intros fs shell ptauFile w folders run Hlen. subst run.
  rewrite (main_nothing_to_verify fs shell ptauFile w Hlen).
  repeat split.
Qed.

(** C8 on a contribution root that holds the baseline only. *)
Lemma nothing_to_verify_witness :
  let run :=
    main Samples.baselineOnly Samples.acceptAll (SetupDone Samples.ptau)
         Samples.freshWorld in
  Utils.getContributionFolders Samples.baselineOnly = ["0000_initial"]
  /\ fst run = NothingToVerify
  /\ outcomes (fst run) = []
  /\ spawned (snd run) = []
  /\ console (snd run)
     = [(Stdout, "Found 1 contributions");
        (Stdout, "At least two contributions are needed for verification.");
        (Stdout,
         "There's only the initial setup folder. Nothing to verify yet.")].
Proof.
  cbv zeta. split; [vm_compute; reflexivity|].
  exact (nothing_to_verify_below_two_folders
           Samples.baselineOnly Samples.acceptAll Samples.ptau
           Samples.freshWorld ltac:(vm_compute; lia)).
Defined.





Lemma chainOutcomes_app (fs : FileSystem) (shell : string -> Completion)
      (ptauFile initialFolder : string) (l1 l2 : list string) :
  chainOutcomes fs shell ptauFile initialFolder (l1 ++ l2)
  = (chainOutcomes fs shell ptauFile initialFolder l1
       ++ chainOutcomes fs shell ptauFile initialFolder l2)%list.
Proof. apply flat_map_app. Qed.

Lemma chainCommands_app (fs : FileSystem) (ptauFile initialFolder : string)
      (l1 l2 : list string) :
  chainCommands fs ptauFile initialFolder (l1 ++ l2)
  = (chainCommands fs ptauFile initialFolder l1
       ++ chainCommands fs ptauFile initialFolder l2)%list.
Proof. apply flat_map_app. Qed.



Lemma folderSkipped_iff (fs : FileSystem) (initialFolder folder : string) :
  folderSkipped fs initialFolder folder = true
  <-> Utils.getZkeyFiles fs folder = []
      \/ Utils.getZkeyFiles fs initialFolder = [].
Proof.
  unfold folderSkipped.
  destruct (Utils.getZkeyFiles fs folder), (Utils.getZkeyFiles fs initialFolder);
    split; intros H; try reflexivity; try discriminate; auto;
    destruct H; discriminate.
Qed.

(** C5: when the listing of the folder or of the baseline holds no
    parameter file, [verifyContribution] gives the folder up before any
    command is spawned: it returns [false], leaves the results as they are
    and writes one error line naming the empty folder.  The chain goes on:
    the run records the outcomes of the folders before and after the
    skipped one, and nothing for the skipped one. *)
Theorem empty_listing_skips_the_folder :
  forall (fs : FileSystem) (shell : string -> Completion) (ptauFile : string)
         (w : World) (baseline : string) (before : list string)
         (skipped : string) (after : list string),
    let run := main fs shell (SetupDone ptauFile) w in
    Utils.getContributionFolders fs
    = baseline :: (before ++ skipped :: after)%list ->
    Utils.getZkeyFiles fs skipped = []
    \/ Utils.getZkeyFiles fs baseline = [] ->
    (forall (results : list VerificationResult) (w0 : World),
        let emptyFolder :=
          match Utils.getZkeyFiles fs skipped with
          | [] => skipped
          | _ :: _ => baseline
          end in
        verifyContribution fs shell skipped baseline ptauFile results w0
        = ((false, results),
           {| console :=
                (console w0
                   ++ [(Stdout,
                        (LF ++ "Verifying contributions in " ++ skipped
                            ++ "...")%string);
                       (Stderr,
                        ("No .zkey files found in " ++ emptyFolder)%string)
                      ])%list;
              spawned := spawned w0 |}))
    /\ accumulated (fst run)
       = Some (chainOutcomes fs shell ptauFile baseline before
                 ++ chainOutcomes fs shell ptauFile baseline after)%list
    /\ spawned (snd run)
       = (spawned w ++ chainCommands fs ptauFile baseline before
                    ++ chainCommands fs ptauFile baseline after)%list.
Proof.
  intros fs shell ptauFile w baseline before skipped after run Hfolders Hempty.
  split; [|].
  - intros results w0. cbv zeta. unfold verifyContribution.
    unfold bind at 1. cbn [console_log].
    destruct (Utils.getZkeyFiles fs skipped) as [|file files].
    + unfold bind, console_error, ret. cbn. now rewrite <- app_assoc.
    + destruct Hempty as [Hempty | Hempty]; [discriminate|].
      rewrite Hempty. unfold bind, console_error, ret. cbn.
      now rewrite <- app_assoc.
  - assert (Hlen : 2 <= List.length (Utils.getContributionFolders fs)).
    { rewrite Hfolders. cbn. rewrite length_app. cbn. lia. }
    destruct (main_run fs shell ptauFile w Hlen) as (e & w1 & E & Hacc & S).
    rewrite Hfolders in Hacc, S. cbn [nth tl] in Hacc, S.
    apply folderSkipped_iff in Hempty.
    rewrite chainOutcomes_app in Hacc. rewrite chainCommands_app in S.
    unfold chainOutcomes at 2 in Hacc. unfold chainCommands at 2 in S.
    cbn [flat_map] in Hacc, S.
    unfold folderOutcomes at 1 in Hacc. unfold folderCommands at 1 in S.
    rewrite Hempty in Hacc, S. cbn [app] in Hacc, S.
    subst run. rewrite E. cbn [fst snd]. split; [exact Hacc | exact S].
Qed.

(** C5 on a chain whose middle folder holds no parameter file. *)
Lemma empty_listing_skips_witness :
  let fs := Samples.emptyContribution in
  let run :=
    main fs Samples.acceptAll (SetupDone Samples.ptau) Samples.freshWorld in
  Utils.getContributionFolders fs
  = "0000_initial" :: ([] ++ "0001_alice" :: ["0002_bob"])%list
  /\ Utils.getZkeyFiles fs "0001_alice" = []
  /\ verifyContribution fs Samples.acceptAll "0001_alice" "0000_initial"
                        Samples.ptau [] Samples.freshWorld
     = ((false, []),
        {| console :=
             [(Stdout, (LF ++ "Verifying contributions in 0001_alice...")%string);
              (Stderr, "No .zkey files found in 0001_alice")];
           spawned := [] |})
  /\ accumulated (fst run)
     = Some [ {| contributionFolder := "0002_bob"; circuitName := "A";
                 success := true; errorMessage := None |} ]
  /\ spawned (snd run)
     = [ zkviCommand "contributions/0000_initial/A.zkey" Samples.ptau
                     "contributions/0002_bob/A.zkey" ].
Proof.
  cbv zeta.
  assert (Hfolders : Utils.getContributionFolders Samples.emptyContribution
                     = "0000_initial" :: ([] ++ "0001_alice" :: ["0002_bob"])%list)
    by (vm_compute; reflexivity).
  assert (Hnone : Utils.getZkeyFiles Samples.emptyContribution "0001_alice" = [])
    by (vm_compute; reflexivity).
  split; [exact Hfolders|]. split; [exact Hnone|].
  destruct (empty_listing_skips_the_folder
              Samples.emptyContribution Samples.acceptAll Samples.ptau
              Samples.freshWorld "0000_initial" [] "0001_alice" ["0002_bob"]
              Hfolders (or_introl Hnone))
    as (Hskip & Hacc & Hsp).
  split; [|split; [rewrite Hacc | rewrite Hsp]; vm_compute; reflexivity].
  rewrite (Hskip [] Samples.freshWorld). rewrite Hnone. reflexivity.
Defined.

Lemma lexLe_refl (a : string) : lexLe a a.
Proof. apply lexLe_iff. now right. Qed.

Lemma Forall2_map_right {A B : Type} (P : A -> B -> Prop) (f : A -> B)
      (l : list A) :
  (forall x, In x l -> P x (f x)) -> Forall2 P l (map f l).
Proof.
  induction l as [|x l IH]; cbn [map]; intros H; constructor.
  - apply H. now left.
  - apply IH. intros y Hy. apply H. now right.
Qed.

Lemma folderOutcomes_circuits (fs : FileSystem) (shell : string -> Completion)
      (ptauFile initialFolder folder : string) :
  folderSkipped fs initialFolder folder = false ->
  map circuitName (folderOutcomes fs shell ptauFile initialFolder folder)
  = map (fun zkeyFile => Path.basename zkeyFile (Some ".zkey"))
        (Utils.getZkeyFiles fs folder).
Proof.
  intros Hs. unfold folderOutcomes, artifactOutcomes. rewrite Hs, map_map.
  apply map_ext. intros zkeyFile. unfold outcomeOf.
  now destruct (isMatched _ _ _).
Qed.

Lemma sorted_block (x : string) (block rest : list string) :
  Forall (fun y => y = x) block ->
  StronglySorted lexLe rest ->
  Forall (lexLe x) rest ->
  StronglySorted lexLe (block ++ rest).
Proof.
  intros Hblock Hrest Hle.
  induction Hblock as [|y block -> Hblock IH]; cbn [app]; [exact Hrest|].
  constructor; [exact IH|].
  apply Forall_app. split; [|exact Hle].
  eapply Forall_impl; [|exact Hblock]. intros y ->. apply lexLe_refl.
Qed.

(** Outcomes recorded folder by folder over a sorted chain name the folders
    in ascending order. *)
Lemma chainOutcomes_sorted (fs : FileSystem) (shell : string -> Completion)
      (ptauFile initialFolder : string) (folders : list string) :
  StronglySorted lexLe folders ->
  StronglySorted lexLe
    (map contributionFolder
         (chainOutcomes fs shell ptauFile initialFolder folders)).
Proof.
  unfold chainOutcomes.
  induction 1 as [|folder folders Hs IH Hle]; cbn [flat_map map];
    [constructor|].
  rewrite map_app. apply (sorted_block folder).
  - apply Forall_map.
    exact (folderOutcomes_folder fs shell ptauFile initialFolder folder).
  - exact IH.
  - apply Forall_forall. intros n Hn. apply in_map_iff in Hn.
    destruct Hn as (r' & <- & Hr'). apply in_flat_map in Hr'.
    destruct Hr' as (later & Hlater & Hr').
    pose proof (folderOutcomes_folder fs shell ptauFile initialFolder later)
      as Hall.
    rewrite Forall_forall in Hall, Hle. rewrite (Hall r' Hr'). now apply Hle.
Qed.

(** C10: the outcome list of a run is made of one segment per contribution
    folder, the segments following the folders in chain order, which is the
    lexical order of their names; a segment holds outcomes of its folder
    only, and when the listings of the folder and of the baseline are both
    non-empty it holds exactly one outcome per listed artifact, in the
    order of the listing.  Hence the folder names along the outcome list
    ascend. *)
Theorem outcomes_are_contiguous_in_chain_order :
  forall (fs : FileSystem) (shell : string -> Completion) (ptauFile : string)
         (w : World),
    let folders := Utils.getContributionFolders fs in
    let baseline := nth 0 folders "" in
    let run := main fs shell (SetupDone ptauFile) w in
    2 <= List.length folders ->
    exists segments,
      accumulated (fst run) = Some (List.concat segments)
      /\ Forall2
           (fun folder segment =>
              Forall (fun r => contributionFolder r = folder) segment
              /\ (Utils.getZkeyFiles fs folder <> [] ->
                  Utils.getZkeyFiles fs baseline <> [] ->
                  map circuitName segment
                  = map (fun zkeyFile => Path.basename zkeyFile (Some ".zkey"))
                        (Utils.getZkeyFiles fs folder)))
           (tl folders) segments
      /\ StronglySorted lexLe (tl folders)
      /\ StronglySorted lexLe (map contributionFolder (outcomes (fst run))).
Proof.
  intros fs shell ptauFile w folders baseline run Hlen.
  destruct (main_run fs shell ptauFile w Hlen) as (e & w' & E & Hacc & _).
  fold folders in Hacc. fold baseline in Hacc.
  assert (Htail : StronglySorted lexLe (tl folders)).
  { pose proof (sort_sorted
                  (filter Utils.matchesOrdinalPrefix
                          (Utils.getDirectories fs Utils.contributionRootFolder)))
      as Hs.
    change (StronglySorted lexLe folders) in Hs.
    destruct Hs; [constructor | assumption]. }
  exists (map (folderOutcomes fs shell ptauFile baseline) (tl folders)).
  subst run. rewrite E. cbn [fst]. unfold outcomes. rewrite Hacc.
  split; [now rewrite <- flat_map_concat_map|].
  split; [|split; [exact Htail | now apply chainOutcomes_sorted]].
  apply Forall2_map_right. intros folder _. split.
  - apply folderOutcomes_folder.
  - intros Hc Hb. apply folderOutcomes_circuits.
    destruct (folderSkipped fs baseline folder) eqn:Hs; [|reflexivity].
    apply folderSkipped_iff in Hs. tauto.
Qed.

(** C10 on the sample ceremony. *)
Lemma outcomes_in_chain_order_witness :
  let run :=
    main Samples.ceremony Samples.rejectAlice (SetupDone Samples.ptau)
         Samples.freshWorld in
  2 <= List.length (Utils.getContributionFolders Samples.ceremony)
  /\ map (fun r => (contributionFolder r, circuitName r)) (outcomes (fst run))
     = [("0001_alice", "A"); ("0001_alice", "C"); ("0002_bob", "A")]
  /\ StronglySorted lexLe (map contributionFolder (outcomes (fst run))).
Proof.
  cbv zeta.
  assert (H : 2 <= List.length (Utils.getContributionFolders Samples.ceremony))
    by (vm_compute; lia).
  split; [exact H|]. split; [vm_compute; reflexivity|].
  destruct (outcomes_are_contiguous_in_chain_order
              Samples.ceremony Samples.rejectAlice Samples.ptau
              Samples.freshWorld H)
    as (segments & _ & _ & _ & Hsorted).
  exact Hsorted.
Defined.

(** ** The pair matcher *)

Lemma string_append_assoc (a b c : string) :
  ((a ++ b) ++ c)%string = (a ++ (b ++ c))%string.
Proof. induction a as [|x a IH]; cbn; [reflexivity | now rewrite IH]. Qed.

Lemma splitAux_slashFree (s : string) :
  Path.slashFree s = true ->
  forall cur, Path.splitAux cur s = [(cur ++ s)%string].
Proof.
  unfold Path.slashFree.
  induction s as [|c s IH]; cbn; intros H cur.
  - f_equal. induction cur as [|x cur IHc]; cbn; congruence.
  - apply andb_true_iff in H. destruct H as [Hc Hs].
    apply negb_true_iff in Hc. rewrite Hc, (IH Hs).
    now rewrite string_append_assoc.
Qed.

Lemma lastComponent_slashFree (s : string) :
  Path.slashFree s = true -> Path.lastComponent s = s.
Proof.
  intros H. unfold Path.lastComponent, Path.split.
  rewrite (splitAux_slashFree s H). cbn.
  destruct (String.eqb_spec s "") as [-> | _]; reflexivity.
Qed.

Lemma substring_split (s : string) :
  forall k, k <= String.length s ->
            (substring 0 k s ++ substring k (String.length s - k) s)%string = s.
Proof.
  induction s as [|c s IH]; intros [|k] Hk; cbn in *; try lia; try reflexivity.
  - f_equal. clear. induction s as [|c s IH]; cbn; congruence.
  - f_equal. apply IH. lia.
Qed.

Lemma endsWith_split (s e : string) :
  Js.endsWith s e = true ->
  (substring 0 (String.length s - String.length e) s ++ e)%string = s.
Proof.
  unfold Js.endsWith. rewrite andb_true_iff, Nat.leb_le, String.eqb_eq.
  intros [Hlen He].
  pose proof (substring_split s (String.length s - String.length e)) as H.
  replace (String.length s - (String.length s - String.length e))
    with (String.length e) in H by lia.
  rewrite He in H. apply H. lia.
Qed.

(** The circuit name of an artifact is its file name without the
    extension. *)
Lemma basename_zkey (file : string) :
  Path.slashFree file = true ->
  Js.endsWith file ".zkey" = true ->
  (Path.basename file (Some ".zkey") ++ ".zkey")%string = file.
Proof.
  intros Hfree Hends. unfold Path.basename.
  rewrite (lastComponent_slashFree file Hfree).
  assert (Hlen : 5 <= String.length file).
  { unfold Js.endsWith in Hends. apply andb_true_iff in Hends.
    destruct Hends as [H _]. now apply Nat.leb_le in H. }
  change (String.eqb ".zkey" "") with false. cbn [orb].
  destruct (Nat.ltb_spec (String.length file) (String.length ".zkey"))
    as [Hlt | _]; [cbn in Hlt; lia|].
  destruct (String.eqb_spec ".zkey" file) as [<- | Hne]; [reflexivity|].
  rewrite Hends. cbn [andb].
  destruct (String.eqb_spec file ".zkey") as [-> | _]; [congruence|].
  cbn [negb]. now apply endsWith_split.
Qed.

Lemma getZkeyFiles_endsWith (fs : FileSystem) (folder file : string) :
  In file (Utils.getZkeyFiles fs folder) -> Js.endsWith file ".zkey" = true.
Proof.
  unfold Utils.getZkeyFiles. intros H. now apply filter_In in H.
Qed.

Lemma isMatched_iff (fs : FileSystem) (initialFolder zkeyFile : string) :
  isMatched fs initialFolder zkeyFile = true
  <-> In zkeyFile (Utils.getZkeyFiles fs initialFolder).
Proof.
  unfold isMatched. rewrite existsb_exists. split.
  - intros (f & Hf & Heq). apply String.eqb_eq in Heq. now subst f.
  - intros H. exists zkeyFile. split; [exact H | apply String.eqb_refl].
Qed.

Lemma verifyContribution_attempted (fs : FileSystem)
      (shell : string -> Completion)
      (ptauFile initialFolder contributionFolder : string)
      (results : list VerificationResult) (w : World) :
  folderSkipped fs initialFolder contributionFolder = false ->
  let recorded :=
    artifactOutcomes fs shell ptauFile initialFolder contributionFolder in
  exists w',
    verifyContribution fs shell contributionFolder initialFolder ptauFile
                       results w
    = ((forallb success recorded, (results ++ recorded)%list), w')
    /\ spawned w'
       = (spawned w
            ++ artifactCommands fs ptauFile initialFolder contributionFolder)%list.
Proof.
  intros Hskip recorded. subst recorded.
  unfold verifyContribution, artifactOutcomes, artifactCommands.
  unfold folderSkipped in Hskip.
  unfold bind at 1. cbn [console_log].
  destruct (Utils.getZkeyFiles fs contributionFolder) as [|file files] eqn:Ec;
    [discriminate|].
  destruct (Utils.getZkeyFiles fs initialFolder) as [|ifile ifiles] eqn:Ei;
    [discriminate|].
  cbn [List.length Nat.eqb]. rewrite <- Ei, <- Ec.
  match goal with
  | |- context [forOf _ _ _ ?w0] =>
      destruct (verifyArtifacts_run fs shell ptauFile initialFolder
                  contributionFolder
                  (Utils.getZkeyFiles fs contributionFolder)
                  ltac:(apply Forall_forall; intros f Hf;
                        eapply getZkeyFiles_nonempty_name; eauto)
                  true results w0)
        as (w' & E & S)
  end.
  cbv zeta in E. rewrite E. exists w'. split; [reflexivity | exact S].
Qed.

(** C4: matching is driven by the listing of the current folder.  When the
    current folder and the baseline both list an artifact, the call records
    exactly one outcome per artifact of the current folder, in listing
    order, so matching goes on past an unmatched artifact; an artifact that
    only the baseline lists gets no outcome; an artifact that only the
    current folder lists gets the failure outcome with the fixed message,
    and the call returns [false].  Entry names hold no path separator, as
    the names of directory entries do. *)
Theorem matching_is_driven_by_current_folder :
  forall (fs : FileSystem) (shell : string -> Completion)
         (ptauFile contributionFolder initialFolder : string)
         (results : list VerificationResult) (w : World),
    let current := Utils.getZkeyFiles fs contributionFolder in
    let initial := Utils.getZkeyFiles fs initialFolder in
    let circuit := fun zkeyFile => Path.basename zkeyFile (Some ".zkey") in
    current <> [] ->
    initial <> [] ->
    Forall (fun file => Path.slashFree file = true) current ->
    Forall (fun file => Path.slashFree file = true) initial ->
    exists allSuccessful w' recorded,
      verifyContribution fs shell contributionFolder initialFolder ptauFile
                         results w
      = ((allSuccessful, (results ++ recorded)%list), w')
      /\ map circuitName recorded = map circuit current
      /\ Forall (fun r => Verify.contributionFolder r = contributionFolder)
                recorded
      /\ (forall zkeyFile,
             In zkeyFile initial -> ~ In zkeyFile current ->
             forall r, In r recorded -> circuitName r <> circuit zkeyFile)
      /\ (forall zkeyFile,
             In zkeyFile current -> ~ In zkeyFile initial ->
             In {| Verify.contributionFolder := contributionFolder;
                   circuitName := circuit zkeyFile;
                   success := false;
                   errorMessage := Some "Missing initial zkey file" |}
                recorded
             /\ allSuccessful = false).
Proof.
  intros fs shell ptauFile contributionFolder initialFolder results w
         current initial circuit Hc Hi Fc Fi.
  subst current initial.
  assert (Hskip : folderSkipped fs initialFolder contributionFolder = false).
  { destruct (folderSkipped fs initialFolder contributionFolder) eqn:E;
      [|reflexivity].
    apply folderSkipped_iff in E. tauto. }
  destruct (verifyContribution_attempted fs shell ptauFile initialFolder
              contributionFolder results w Hskip) as (w' & E & _).
  cbv zeta in E.
  set (recorded :=
         artifactOutcomes fs shell ptauFile initialFolder contributionFolder)
    in *.
  exists (forallb success recorded), w', recorded.
  split; [exact E|].
  assert (Hcircuit : forall f,
             circuitName (outcomeOf fs shell ptauFile initialFolder
                                    contributionFolder f) = circuit f).
  { intros f. unfold outcomeOf. now destruct (isMatched _ _ _). }
  split.
  { unfold recorded, artifactOutcomes. rewrite map_map. apply map_ext.
    exact Hcircuit. }
  split.
  { pose proof (folderOutcomes_folder fs shell ptauFile initialFolder
                                      contributionFolder) as H.
    unfold folderOutcomes in H. now rewrite Hskip in H. }
  rewrite Forall_forall in Fc, Fi.
  split.
  - intros b Hb Hnot r Hr Heq. unfold recorded, artifactOutcomes in Hr.
    apply in_map_iff in Hr. destruct Hr as (c & <- & Hcin).
    rewrite Hcircuit in Heq. apply Hnot.
    assert (c = b) as <-; [|exact Hcin].
    rewrite <- (basename_zkey c), <- (basename_zkey b);
      [ unfold circuit in Heq; now rewrite Heq
      | now apply Fi
      | eapply getZkeyFiles_endsWith; exact Hb
      | now apply Fc
      | eapply getZkeyFiles_endsWith; exact Hcin ].
  - intros c Hcin Hnot.
    assert (Hm : isMatched fs initialFolder c = false).
    { destruct (isMatched fs initialFolder c) eqn:Hm; [|reflexivity].
      apply isMatched_iff in Hm. contradiction. }
    assert (Hout : outcomeOf fs shell ptauFile initialFolder contributionFolder c
                   = missingInitialZkey contributionFolder (circuit c)).
    { unfold outcomeOf. now rewrite Hm. }
    assert (Hin : In (missingInitialZkey contributionFolder (circuit c)) recorded).
    { rewrite <- Hout. unfold recorded, artifactOutcomes. now apply in_map. }
    split; [exact Hin|].
    destruct (forallb success recorded) eqn:Hall; [|reflexivity].
    rewrite forallb_forall in Hall. specialize (Hall _ Hin). discriminate Hall.
Qed.

(** C4 on the sample ceremony: the baseline lists A and B, alice lists A
    and C. *)
Lemma matching_witness :
  let fs := Samples.ceremony in
  Utils.getZkeyFiles fs "0001_alice" = ["A.zkey"; "C.zkey"]
  /\ Utils.getZkeyFiles fs "0000_initial" = ["A.zkey"; "B.zkey"]
  /\ exists allSuccessful w' recorded,
       verifyContribution fs Samples.acceptAll "0001_alice" "0000_initial"
                          Samples.ptau [] Samples.freshWorld
       = ((allSuccessful, recorded), w')
       /\ map circuitName recorded = ["A"; "C"]
       /\ (forall r, In r recorded -> circuitName r <> "B")
       /\ In (missingInitialZkey "0001_alice" "C") recorded
       /\ allSuccessful = false.
Proof.
  cbv zeta.
  assert (Hc : Utils.getZkeyFiles Samples.ceremony "0001_alice"
               = ["A.zkey"; "C.zkey"]) by (vm_compute; reflexivity).
  assert (Hi : Utils.getZkeyFiles Samples.ceremony "0000_initial"
               = ["A.zkey"; "B.zkey"]) by (vm_compute; reflexivity).
  split; [exact Hc|]. split; [exact Hi|].
  destruct (matching_is_driven_by_current_folder
              Samples.ceremony Samples.acceptAll Samples.ptau
              "0001_alice" "0000_initial" [] Samples.freshWorld)
    as (allSuccessful & w' & recorded & E & Hnames & _ & Hbase & Hcur).
  - rewrite Hc. discriminate.
  - rewrite Hi. discriminate.
  - rewrite Hc. repeat constructor.
  - rewrite Hi. repeat constructor.
  - exists allSuccessful, w', recorded. rewrite Hc in Hnames, Hcur, Hbase.
    rewrite Hi in Hbase, Hcur.
    split; [exact E|]. split; [exact Hnames|].
    split.
    + apply (Hbase "B.zkey"); cbn; [tauto|].
      intros [H | [H | []]]; discriminate H.
    + apply (Hcur "C.zkey"); cbn; [tauto|].
      intros [H | [H | []]]; discriminate H.
Defined.

(** ** The report aggregator *)

Lemma distinct_step_In (xs : list string) :
  forall seen y,
    In y (fold_left
            (fun seen x =>
               if existsb (String.eqb x) seen then seen else (seen ++ [x])%list)
            xs seen)
    <-> In y seen \/ In y xs.
Proof.
  induction xs as [|x xs IH]; intros seen y; cbn [fold_left].
  - cbn. tauto.
  - rewrite IH. destruct (existsb (String.eqb x) seen) eqn:E.
    + apply existsb_exists in E. destruct E as (z & Hz & Heq).
      apply String.eqb_eq in Heq. subst z. cbn. intuition (subst; auto).
    + rewrite in_app_iff. cbn. tauto.
Qed.

Lemma distinct_In (xs : list string) (y : string) :
  In y (Js.distinct xs) <-> In y xs.
Proof.
  unfold Js.distinct. rewrite distinct_step_In. cbn. tauto.
Qed.

Lemma distinct_step_NoDup (xs : list string) :
  forall seen,
    NoDup seen ->
    NoDup (fold_left
             (fun seen x =>
                if existsb (String.eqb x) seen then seen else (seen ++ [x])%list)
             xs seen).
Proof.
  induction xs as [|x xs IH]; intros seen Hseen; cbn [fold_left];
    [exact Hseen|].
  apply IH. destruct (existsb (String.eqb x) seen) eqn:E; [exact Hseen|].
  apply NoDup_app; [exact Hseen | repeat constructor; intros [] |].
  intros a Hin [<- | []].
  assert (existsb (String.eqb x) seen = true); [|congruence].
  apply existsb_exists. exists x. split; [exact Hin | apply String.eqb_refl].
Qed.

Lemma find_key_none {T : Type} (o : Js.object T) (k : string) :
  find (fun kv => String.eqb (fst kv) k) o = None
  <-> existsb (String.eqb k) (map fst o) = false.
Proof.
  induction o as [|kv o IH]; cbn; [tauto|].
  rewrite (String.eqb_sym k (fst kv)).
  destruct (String.eqb (fst kv) k); cbn; [split; discriminate | exact IH].
Qed.

Lemma find_key_some {T : Type} (o : Js.object T) (k : string) (kv : string * T) :
  find (fun kv => String.eqb (fst kv) k) o = Some kv ->
  existsb (String.eqb k) (map fst o) = true /\ Js.hasOwn o k = true.
Proof.
  intros H. destruct (existsb (String.eqb k) (map fst o)) eqn:E.
  - split; [reflexivity|]. unfold Js.hasOwn. apply existsb_exists.
    exists kv. apply find_some in H. exact H.
  - apply find_key_none in E. congruence.
Qed.

Lemma set_keys_own {T : Type} (o : Js.object T) (k : string) (v : T) :
  Js.hasOwn o k = true -> map fst (Js.set o k v) = map fst o.
Proof.
  intros Hown. unfold Js.set. destruct (String.eqb k "__proto__"); [reflexivity|].
  rewrite Hown, map_map. apply map_ext_in. intros kv _.
  destruct (String.eqb_spec (fst kv) k) as [<- | _]; reflexivity.
Qed.

Lemma set_keys_fresh {T : Type} (o : Js.object T) (k : string) (v : T) :
  Js.isPrototypeKey k = false ->
  existsb (String.eqb k) (map fst o) = false ->
  map fst (Js.set o k v) = (map fst o ++ [k])%list.
Proof.
  intros Hproto Hfresh. unfold Js.set.
  destruct (String.eqb_spec k "__proto__") as [-> | _]; [discriminate Hproto|].
  assert (Hown : Js.hasOwn o k = false).
  { unfold Js.hasOwn. destruct (existsb _ o) eqn:E; [|reflexivity].
    apply existsb_exists in E. destruct E as (kv & Hin & Heq).
    assert (existsb (String.eqb k) (map fst o) = true); [|congruence].
    apply existsb_exists. exists (fst kv). split; [now apply in_map|].
    now rewrite String.eqb_sym. }
  rewrite Hown, map_app. reflexivity.
Qed.

Lemma groupByFolder_thrown (results : list VerificationResult) :
  fold_left groupByFolder results None = None.
Proof. induction results as [|r results IH]; cbn; auto. Qed.

(** The own keys of [folderGroups] are the folders of the outcomes, each
    once, in the order in which they first occur. *)
Lemma groupByFolder_keys (results : list VerificationResult) :
  forall acc folderGroups,
    fold_left groupByFolder results (Some acc) = Some folderGroups ->
    map fst folderGroups
    = fold_left
        (fun seen x =>
           if existsb (String.eqb x) seen then seen else (seen ++ [x])%list)
        (map contributionFolder results) (map fst acc).
Proof.
  induction results as [|r results IH]; intros acc g; cbn [fold_left map].
  - intros H. now inversion H.
  - unfold groupByFolder at 2. unfold Js.get.
    destruct (find _ acc) as [kv|] eqn:Ef.
    + destruct (find_key_some acc _ kv Ef) as [Hex Hown].
      intros H. apply IH in H. rewrite H, Hex. now rewrite set_keys_own.
    + destruct (Js.isPrototypeKey (contributionFolder r)) eqn:Ep.
      * rewrite groupByFolder_thrown. discriminate.
      * apply find_key_none in Ef. intros H. apply IH in H.
        rewrite H, Ef. now rewrite set_keys_fresh.
Qed.

Lemma groupByFolder_total (results : list VerificationResult) :
  (forall r, In r results -> Js.isPrototypeKey (contributionFolder r) = false) ->
  forall acc, exists folderGroups,
      fold_left groupByFolder results (Some acc) = Some folderGroups.
Proof.
  induction results as [|r results IH]; intros Hok acc; cbn [fold_left].
  - now exists acc.
  - unfold groupByFolder at 2. unfold Js.get.
    rewrite (Hok r (or_introl eq_refl)).
    destruct (find _ acc); apply IH; intros r' Hr'; apply Hok; now right.
Qed.

Lemma mapOrThrow_total {A B : Type} (f : A -> option B) (xs : list A) :
  (forall x, In x xs -> exists y, f x = Some y) ->
  exists ys, mapOrThrow f xs = Some ys.
Proof.
  induction xs as [|x xs IH]; cbn; intros H; [now exists []|].
  destruct (H x (or_introl eq_refl)) as (y & ->).
  destruct IH as (ys & ->); [intros z Hz; apply H; now right|].
  now exists (y :: ys).
Qed.

Lemma rows_folders (folderGroups : Js.object (list VerificationResult))
      (circuits keys : list string) :
  forall rows,
    mapOrThrow (rowOf folderGroups circuits) keys = Some rows ->
    map fst rows = keys.
Proof.
  induction keys as [|k keys IH]; cbn; intros rows H.
  - now inversion H.
  - destruct (rowOf folderGroups circuits k) as [row|] eqn:Er; [|discriminate].
    destruct (mapOrThrow _ keys) as [rest|]; [|discriminate].
    inversion H; subst. cbn. rewrite (IH rest eq_refl). f_equal.
    unfold rowOf in Er. destruct (Js.get folderGroups k); try discriminate.
    destruct (mapOrThrow _ circuits); inversion Er. reflexivity.
Qed.

Lemma cellOf_total (resultByCircuit : Js.object Cell) (circuit : string) :
  Js.isPrototypeKey circuit = false ->
  exists cell, cellOf resultByCircuit circuit = Some cell.
Proof.
  intros H. unfold cellOf, Js.get. rewrite H.
  destruct (find _ resultByCircuit); eauto.
Qed.

Lemma rowOf_total (folderGroups : Js.object (list VerificationResult))
      (circuits : list string) (folder : string) :
  In folder (map fst folderGroups) ->
  (forall c, In c circuits -> Js.isPrototypeKey c = false) ->
  exists row, rowOf folderGroups circuits folder = Some row.
Proof.
  intros Hin Hc. unfold rowOf, Js.get.
  destruct (find _ folderGroups) as [kv|] eqn:Ef.
  - destruct (mapOrThrow_total (cellOf (resultByCircuitOf (snd kv))) circuits)
      as (cells & ->); [|eauto].
    intros c Hcin. apply cellOf_total. now apply Hc.
  - apply find_key_none in Ef.
    assert (existsb (String.eqb folder) (map fst folderGroups) = true);
      [|congruence].
    apply existsb_exists. exists folder. split; [exact Hin|].
    apply String.eqb_refl.
Qed.

(** C9, as stated, fails: with the outcomes of a later folder listed first,
    the rows of the table still come in the lexical order of the folder
    names, not in the order in which the folders first occur. *)
Lemma rows_by_first_occurrence_fails :
  option_map (fun table => map fst (rows table))
             (printResultsTable Samples.laterFolderFirst)
  = Some ["0001_alice"; "0002_bob"]
  /\ rowsByFirstOccurrence Samples.laterFolderFirst
     = ["0002_bob"; "0001_alice"]
  /\ option_map (fun table => map fst (rows table))
                (printResultsTable Samples.laterFolderFirst)
     <> Some (rowsByFirstOccurrence Samples.laterFolderFirst).
Proof.
  repeat split; try (vm_compute; reflexivity).
  vm_compute. discriminate.
Qed.

(** C9, amended: the table has one row per folder of the outcome list, the
    rows in the lexically ascending order of the folder names whatever the
    order of the list, and one column per circuit name of the list, the
    columns sorted lexically.  The table is printed whenever no folder or
    circuit is named like a member of [Object.prototype]. *)
Theorem report_rows_and_columns_sorted :
  forall results : list VerificationResult,
    ((forall r,
         In r results ->
         Js.isPrototypeKey (contributionFolder r) = false
         /\ Js.isPrototypeKey (circuitName r) = false) ->
     exists table, printResultsTable results = Some table)
    /\ forall table,
         printResultsTable results = Some table ->
         let folders := map fst (rows table) in
         folders = Js.sort (Js.distinct (map contributionFolder results))
         /\ StronglySorted lexLe folders
         /\ NoDup folders
         /\ (forall folder,
                In folder folders <-> In folder (map contributionFolder results))
         /\ allCircuits table
            = Js.sort (Js.distinct (map circuitName results))
         /\ StronglySorted lexLe (allCircuits table)
         /\ NoDup (allCircuits table)
         /\ (forall circuit,
                In circuit (allCircuits table)
                <-> In circuit (map circuitName results)).
Proof.
  intros results. split.
  - intros Hok. unfold printResultsTable.
    destruct (groupByFolder_total results (fun r Hr => proj1 (Hok r Hr)) [])
      as (g & ->).
    destruct (mapOrThrow_total
                (rowOf g (Js.sort (Js.distinct (map circuitName results))))
                (Js.sortedKeys g)) as (rs & ->); [|eauto].
    intros folder Hfolder. apply rowOf_total.
    + eapply Permutation_in; [apply sort_perm | exact Hfolder].
    + intros c Hc. eapply Permutation_in in Hc; [|apply sort_perm].
      apply distinct_In, in_map_iff in Hc. destruct Hc as (r & <- & Hr).
      exact (proj2 (Hok r Hr)).
  - intros table. unfold printResultsTable.
    destruct (fold_left groupByFolder results
                        (Some ([] : Js.object (list VerificationResult))))
      as [g|] eqn:Eg; [|intros H; discriminate H].
    destruct (mapOrThrow _ (Js.sortedKeys g)) as [rs|] eqn:Er;
      [|intros H; discriminate H].
    intros H. inversion H; subst table; clear H. cbn [rows allCircuits].
    apply rows_folders in Er. apply groupByFolder_keys in Eg. cbn [map] in Eg.
    assert (Hkeys : map fst rs
                    = Js.sort (Js.distinct (map contributionFolder results))).
    { rewrite Er. unfold Js.sortedKeys, Js.distinct. now rewrite Eg. }
    cbv zeta. rewrite Hkeys.
    assert (Hgen : forall xs,
               StronglySorted lexLe (Js.sort (Js.distinct xs))
               /\ NoDup (Js.sort (Js.distinct xs))
               /\ forall x, In x (Js.sort (Js.distinct xs)) <-> In x xs).
    { intros xs. split; [apply sort_sorted|]. split.
      - eapply Permutation_NoDup; [symmetry; apply sort_perm|].
        apply distinct_step_NoDup. constructor.
      - intros x. split; intros Hx.
        + apply distinct_In.
          eapply Permutation_in; [apply sort_perm | exact Hx].
        + eapply Permutation_in; [symmetry; apply sort_perm|].
          now apply distinct_In. }
    destruct (Hgen (map contributionFolder results)) as (S1 & N1 & I1).
    destruct (Hgen (map circuitName results)) as (S2 & N2 & I2).
    repeat split; try assumption; try apply I1; try apply I2.
Qed.

(** * Further properties of the verification pass *)

Lemma filter_split_length {A : Type} (p : A -> bool) (l : list A) :
  List.length (filter p l) + List.length (filter (fun x => negb (p x)) l)
  = List.length l.
Proof.
  induction l as [|x l IH]; cbn; [reflexivity|].
  destruct (p x); cbn; lia.
Qed.

(** X1: the totals of a printed summary count the outcome list: the total
    is its length, the passed and failed counts are the numbers of outcomes
    with and without success and add up to the total, and the list of
    failed verifications holds the failed outcomes in order, each with its
    message or with "Verification failed" when it has none. *)
Theorem summary_totals_count_the_outcomes :
  forall (results : list VerificationResult) (table : SummaryTable),
    printResultsTable results = Some table ->
    let failed := filter (fun r => negb (success r)) results in
    totalTests table = List.length results
    /\ passedTests table = List.length (filter success results)
    /\ failedTests table = List.length failed
    /\ passedTests table + failedTests table = totalTests table
    /\ failedVerifications table
       = map (fun r => (contributionFolder r, circuitName r, failureText r))
             failed.
Proof.
  intros results table. unfold printResultsTable.
  destruct (fold_left groupByFolder results
                      (Some ([] : Js.object (list VerificationResult))))
    as [g|]; [|intros H; discriminate H].
  destruct (mapOrThrow _ (Js.sortedKeys g)) as [rs|];
    [|intros H; discriminate H].
  intros H. inversion H; subst table; clear H. cbv zeta.
  cbn [totalTests passedTests failedTests failedVerifications].
  pose proof (filter_split_length success results) as Hsplit.
  repeat split; try lia.
  destruct (Nat.ltb_spec 0 (List.length results
                            - List.length (filter success results)))
    as [_ | Hzero]; [reflexivity|].
  destruct (filter (fun r => negb (success r)) results) as [|r rest];
    [reflexivity | cbn in Hsplit; lia].
Qed.

(** X1 on the outcomes of the sample ceremony. *)
Lemma summary_totals_witness :
  exists table,
    printResultsTable
      (outcomes (fst (main Samples.ceremony Samples.rejectAlice
                           (SetupDone Samples.ptau) Samples.freshWorld)))
    = Some table
    /\ totalTests table = 3
    /\ passedTests table = 1
    /\ failedTests table = 2
    /\ failedVerifications table
       = [("0001_alice", "A", "Command failed: snarkjs zkvi");
          ("0001_alice", "C", "Missing initial zkey file")].
Proof.
  match goal with
  | |- exists table, ?print = _ /\ _ =>
      destruct print as [table|] eqn:E; [|vm_compute in E; discriminate E]
  end.
  exists table. split; [reflexivity|].
  destruct (summary_totals_count_the_outcomes _ table E)
    as (Ht & Hp & Hf & _ & Hl).
  rewrite Ht, Hp, Hf, Hl. repeat split.
Defined.


Lemma outcomeOf_success (fs : FileSystem) (shell : string -> Completion)
      (ptauFile initialFolder contributionFolder zkeyFile : string) :
  success (outcomeOf fs shell ptauFile initialFolder contributionFolder zkeyFile)
  = true
  <-> isMatched fs initialFolder zkeyFile = true
      /\ shell (pairCommand ptauFile initialFolder contributionFolder zkeyFile)
         = Normal.
Proof.
  unfold outcomeOf.
  destruct (isMatched fs initialFolder zkeyFile); cbn.
  - destruct (shell _) as [|[message|]]; cbn; split;
      try discriminate; try tauto; intros [_ H]; discriminate H.
  - split; [discriminate | intros [H _]; discriminate H].
Qed.


(** X3: in the outcomes of a run the error message is absent exactly on
    success; a failed outcome carries the fixed text of an unmatched
    artifact, the message of the error the verifier threw, or "Unknown
    error"; and an outcome succeeds only if the verifier, spawned by this
    run on the artifact and its namesake in the baseline, completed
    normally. *)
Theorem run_outcomes_are_well_formed :
  forall (fs : FileSystem) (shell : string -> Completion) (ptauFile : string)
         (w : World),
    let folders := Utils.getContributionFolders fs in
    let baseline := nth 0 folders "" in
    let run := main fs shell (SetupDone ptauFile) w in
    forall r,
      In r (outcomes (fst run)) ->
      (success r = true <-> errorMessage r = None)
      /\ exists folder zkeyFile,
           In folder (tl folders)
           /\ In zkeyFile (Utils.getZkeyFiles fs folder)
           /\ contributionFolder r = folder
           /\ circuitName r = Path.basename zkeyFile (Some ".zkey")
           /\ (success r = true ->
               let command := pairCommand ptauFile baseline folder zkeyFile in
               In zkeyFile (Utils.getZkeyFiles fs baseline)
               /\ shell command = Normal
               /\ In command (spawned (snd run)))
           /\ (success r = false ->
               (~ In zkeyFile (Utils.getZkeyFiles fs baseline)
                /\ errorMessage r = Some "Missing initial zkey file")
               \/ (exists error,
                      In zkeyFile (Utils.getZkeyFiles fs baseline)
                      /\ shell (pairCommand ptauFile baseline folder zkeyFile)
                         = Throws error
                      /\ errorMessage r
                         = Some match error with
                                | ErrorObject message => message
                                | NonError => "Unknown error"
                                end)).
Proof.
  intros fs shell ptauFile w folders baseline run r Hr.
  destruct (Nat.lt_ge_cases (List.length folders) 2) as [Hlt | Hge].
  { subst run. rewrite (main_nothing_to_verify fs shell ptauFile w Hlt) in Hr.
    contradiction. }
  destruct (main_run fs shell ptauFile w Hge) as (e & w' & E & Hacc & Hsp).
  fold folders in Hacc, Hsp. fold baseline in Hacc, Hsp.
  subst run. rewrite E in *. cbn [fst snd] in *.
  unfold outcomes in Hr. rewrite Hacc in Hr.
  unfold chainOutcomes in Hr. apply in_flat_map in Hr.
  destruct Hr as (folder & Hfolder & Hr).
  unfold folderOutcomes in Hr.
  destruct (folderSkipped fs baseline folder) eqn:Hskip; [contradiction|].
  unfold artifactOutcomes in Hr. apply in_map_iff in Hr.
  destruct Hr as (zkeyFile & <- & Hz).
  assert (Hcmd : isMatched fs baseline zkeyFile = true ->
                 In (pairCommand ptauFile baseline folder zkeyFile) (spawned w')).
  { intros Hm. rewrite Hsp. apply in_or_app. right.
    unfold chainCommands. apply in_flat_map. exists folder.
    split; [exact Hfolder|]. unfold folderCommands. rewrite Hskip.
    unfold artifactCommands. apply in_map. apply filter_In. now split. }
  split.
  - unfold outcomeOf. destruct (isMatched fs baseline zkeyFile); cbn;
      [destruct (shell _) as [|[message|]]; cbn|]; split; congruence.
  - exists folder, zkeyFile. split; [exact Hfolder|]. split; [exact Hz|].
    split; [unfold outcomeOf; now destruct (isMatched _ _ _)|].
    split; [unfold outcomeOf; now destruct (isMatched _ _ _)|].
    split.
    + intros Hs. cbv zeta. apply outcomeOf_success in Hs.
      destruct Hs as [Hm Hn]. split; [now apply isMatched_iff|].
      split; [exact Hn | now apply Hcmd].
    + unfold outcomeOf.
      destruct (isMatched fs baseline zkeyFile) eqn:Hm; cbn.
      * apply isMatched_iff in Hm.
        destruct (shell _) as [|error] eqn:Es; cbn; [discriminate|].
        intros _. right. exists error. split; [exact Hm|].
        split; [reflexivity|]. now destruct error.
      * intros _. left. split; [|reflexivity].
        intros Hin. apply isMatched_iff in Hin. congruence.
Qed.

(** X3 on the sample ceremony: the outcome recorded for bob. *)
Lemma run_outcomes_witness :
  let run :=
    main Samples.ceremony Samples.rejectAlice (SetupDone Samples.ptau)
         Samples.freshWorld in
  let r := {| contributionFolder := "0002_bob"; circuitName := "A";
              success := true; errorMessage := None |} in
  In r (outcomes (fst run))
  /\ (success r = true <-> errorMessage r = None).
Proof.
  cbv zeta.
  assert (H : In {| contributionFolder := "0002_bob"; circuitName := "A";
                    success := true; errorMessage := None |}
                 (outcomes (fst (main Samples.ceremony Samples.rejectAlice
                                      (SetupDone Samples.ptau)
                                      Samples.freshWorld))))
    by (vm_compute; tauto).
  split; [exact H|].
  exact (proj1 (run_outcomes_are_well_formed
                  Samples.ceremony Samples.rejectAlice Samples.ptau
                  Samples.freshWorld _ H)).
Defined.

(** ** The summary of a run *)

Lemma main_run_ending (fs : FileSystem) (shell : string -> Completion)
      (ptauFile : string) (w : World) :
  let folders := Utils.getContributionFolders fs in
  let results :=
    chainOutcomes fs shell ptauFile (nth 0 folders "") (tl folders) in
  2 <= List.length folders ->
  exists w',
    main fs shell (SetupDone ptauFile) w
    = (match printResultsTable results with
       | Some table => Summarised results table
       | None => ExitInSummary results
       end, w')
    /\ spawned w'
       = (spawned w ++ chainCommands fs ptauFile (nth 0 folders "")
                                     (tl folders))%list.
Proof.
  intros folders results Hlen. subst results. unfold main. fold folders.
  unfold bind at 1. cbn [console_log].
  destruct (Nat.ltb_spec (List.length folders) 2) as [Hlt | _]; [lia|].
  unfold bind at 1.
  rewrite (forOf_map (fun i => nth i folders "")
                     (chainStep fs shell ptauFile (nth 0 folders ""))).
  rewrite nth_indices_tail.
  match goal with
  | |- context [forOf _ _ _ ?w0] =>
      destruct (chainLoop_run fs shell ptauFile (nth 0 folders "")
                              (tl folders) [] w0)
        as (w' & E & S)
  end.
  rewrite E. cbn [app]. exists w'.
  destruct (printResultsTable _); cbn [ret]; split; (reflexivity || exact S).
Qed.

Lemma digit_is_not (c x : ascii) :
  Js.isDigit c = true -> Js.isDigit x = false -> Ascii.eqb c x = false.
Proof.
  intros Hc Hx. apply Ascii.eqb_neq. intros ->. congruence.
Qed.

(** A folder of the chain is never named like a member of
    [Object.prototype]: its name starts with a digit. *)
Lemma ordinal_prefix_not_inherited (folder : string) :
  Utils.matchesOrdinalPrefix folder = true ->
  Js.isPrototypeKey folder = false.
Proof.
  intros H. destruct (matchesOrdinalPrefix_inv folder H)
    as (d1 & d2 & d3 & d4 & rest & -> & H1 & _).
  unfold Js.isPrototypeKey, Js.prototypeKeys. cbn [existsb String.eqb].
  rewrite !(digit_is_not d1 _ H1) by reflexivity. reflexivity.
Qed.

Lemma printResultsTable_total (results : list VerificationResult) :
  (forall r,
      In r results ->
      Js.isPrototypeKey (contributionFolder r) = false
      /\ Js.isPrototypeKey (circuitName r) = false) ->
  exists table, printResultsTable results = Some table.
Proof.
  intros Hok. unfold printResultsTable.
  destruct (groupByFolder_total results (fun r Hr => proj1 (Hok r Hr)) [])
    as (g & ->).
  destruct (mapOrThrow_total
              (rowOf g (Js.sort (Js.distinct (map circuitName results))))
              (Js.sortedKeys g)) as (rs & ->); [|eauto].
  intros folder Hfolder. apply rowOf_total.
  - eapply Permutation_in; [apply sort_perm | exact Hfolder].
  - intros c Hc. eapply Permutation_in in Hc; [|apply sort_perm].
    apply distinct_In, in_map_iff in Hc. destruct Hc as (r & <- & Hr).
    exact (proj2 (Hok r Hr)).
Qed.

Lemma chainOutcomes_origin (fs : FileSystem) (shell : string -> Completion)
      (ptauFile initialFolder : string) (folders : list string)
      (r : VerificationResult) :
  In r (chainOutcomes fs shell ptauFile initialFolder folders) ->
  exists folder zkeyFile,
    In folder folders
    /\ folderSkipped fs initialFolder folder = false
    /\ In zkeyFile (Utils.getZkeyFiles fs folder)
    /\ r = outcomeOf fs shell ptauFile initialFolder folder zkeyFile.
Proof.
  unfold chainOutcomes. intros Hr. apply in_flat_map in Hr.
  destruct Hr as (folder & Hfolder & Hr). unfold folderOutcomes in Hr.
  destruct (folderSkipped fs initialFolder folder) eqn:Hs; [contradiction|].
  unfold artifactOutcomes in Hr. apply in_map_iff in Hr.
  destruct Hr as (zkeyFile & <- & Hz). exists folder, zkeyFile. auto.
Qed.

Lemma outcomeOf_names (fs : FileSystem) (shell : string -> Completion)
      (ptauFile initialFolder folder zkeyFile : string) :
  let r := outcomeOf fs shell ptauFile initialFolder folder zkeyFile in
  contributionFolder r = folder
  /\ circuitName r = Path.basename zkeyFile (Some ".zkey").
Proof. cbv zeta. unfold outcomeOf. now destruct (isMatched _ _ _). Qed.

(** On a file system whose folders can all be listed, a run over two
    folders or more ends with the printed summary as long as no circuit is
    named like a member of [Object.prototype]. *)
Lemma listed_run_prints_the_summary :
  forall (fs : FileSystem) (shell : string -> Completion) (ptauFile : string)
         (w : World),
    let folders := Utils.getContributionFolders fs in
    let run := main fs shell (SetupDone ptauFile) w in
    2 <= List.length folders ->
    (forall folder zkeyFile,
        In folder (tl folders) ->
        In zkeyFile (Utils.getZkeyFiles fs folder) ->
        Js.isPrototypeKey (Path.basename zkeyFile (Some ".zkey")) = false) ->
    exists results table,
      fst run = Summarised results table
      /\ printResultsTable results = Some table.
Proof.
  intros fs shell ptauFile w folders run Hlen Hnames.
  destruct (main_run_ending fs shell ptauFile w Hlen) as (w' & E & _).
  cbv zeta in E. fold folders in E. subst run. rewrite E. cbn [fst].
  destruct (printResultsTable_total
              (chainOutcomes fs shell ptauFile (nth 0 folders "") (tl folders)))
    as (table & Ht).
  - intros r Hr. apply chainOutcomes_origin in Hr.
    destruct Hr as (folder & zkeyFile & Hf & _ & Hz & ->).
    destruct (outcomeOf_names fs shell ptauFile (nth 0 folders "") folder
                              zkeyFile) as [-> ->].
    split; [|now apply (Hnames folder zkeyFile)].
    apply ordinal_prefix_not_inherited.
    apply (getContributionFolders_match fs).
    fold folders. destruct folders as [|b rest]; [contradiction|]. now right.
  - rewrite Ht. eauto.
Qed.





(** ** The cells of the summary *)

Lemma find_app' {A : Type} (p : A -> bool) (l1 l2 : list A) :
  find p (l1 ++ l2)
  = match find p l1 with
    | Some x => Some x
    | None => find p l2
    end.
Proof.
  induction l1 as [|x l1 IH]; cbn; [reflexivity|]. now destruct (p x).
Qed.

Lemma find_filter {A : Type} (p q : A -> bool) (l : list A) :
  find p (filter q l) = find (fun x => q x && p x) l.
Proof.
  induction l as [|x l IH]; cbn; [reflexivity|].
  destruct (q x); cbn; [now destruct (p x) | exact IH].
Qed.

Lemma get_set_same {T : Type} (o : Js.object T) (k : string) (v : T) :
  k <> "__proto__" -> Js.get (Js.set o k v) k = Js.Own v.
Proof.
  intros Hk. unfold Js.set. apply String.eqb_neq in Hk. rewrite Hk.
  unfold Js.get, Js.hasOwn.
  destruct (existsb _ o) eqn:Eo.
  - induction o as [|kv o IH]; cbn in *; [discriminate|].
    destruct (String.eqb (fst kv) k) eqn:Ek; cbn.
    + now rewrite String.eqb_refl.
    + rewrite Ek. apply IH. exact Eo.
  - rewrite find_app'.
    assert (Hnone : find (fun kv : string * T => String.eqb (fst kv) k) o = None).
    { induction o as [|kv o IH]; cbn in *; [reflexivity|].
      destruct (String.eqb (fst kv) k); [discriminate | now apply IH]. }
    rewrite Hnone. cbn. now rewrite String.eqb_refl.
Qed.

Lemma get_set_other {T : Type} (o : Js.object T) (k k' : string) (v : T) :
  k' <> k -> Js.get (Js.set o k v) k' = Js.get o k'.
Proof.
  intros Hk. unfold Js.set. destruct (String.eqb k "__proto__"); [reflexivity|].
  assert (Hkk : String.eqb k k' = false) by (apply String.eqb_neq; congruence).
  unfold Js.get. destruct (Js.hasOwn o k).
  - f_equal.
    assert (Hfind :
              find (fun kv : string * T => String.eqb (fst kv) k')
                   (map (fun kv : string * T =>
                           if String.eqb (fst kv) k then (k, v) else kv) o)
              = find (fun kv : string * T => String.eqb (fst kv) k') o).
    { induction o as [|kv o IH]; cbn; [reflexivity|].
      destruct (String.eqb_spec (fst kv) k) as [E | _]; cbn.
      - rewrite Hkk, E, Hkk. exact IH.
      - now rewrite IH. }
    now rewrite Hfind.
  - rewrite find_app'. cbn. rewrite Hkk.
    now destruct (find _ o).
Qed.

(** The group of a folder holds its outcomes, in the order of the list. *)
Lemma groupByFolder_get (results : list VerificationResult) :
  forall acc folderGroups,
    Js.get acc "__proto__" = Js.Inherited ->
    fold_left groupByFolder results (Some acc) = Some folderGroups ->
    forall k,
      Js.get folderGroups k
      = match Js.get acc k with
        | Js.Own group =>
            Js.Own (group ++ filter (fun r => String.eqb (contributionFolder r) k)
                                    results)%list
        | other =>
            match filter (fun r => String.eqb (contributionFolder r) k) results
            with
            | [] => other
            | _ :: _ =>
                Js.Own (filter (fun r => String.eqb (contributionFolder r) k)
                               results)
            end
        end.
Proof.
  induction results as [|r results IH]; intros acc g Hproto;
    cbn [fold_left filter].
  - intros H k. inversion H; subst. destruct (Js.get g k); try reflexivity.
    now rewrite app_nil_r.
  - unfold groupByFolder at 2.
    destruct (Js.get acc (contributionFolder r)) as [group| |] eqn:Eg.
    + assert (Hne : contributionFolder r <> "__proto__") by congruence.
      intros H k.
      rewrite (IH _ _ (eq_trans (get_set_other _ _ _ _ (not_eq_sym Hne)) Hproto)
                  H k).
      destruct (String.eqb_spec (contributionFolder r) k) as [<- | Hk].
      * rewrite (get_set_same _ _ _ Hne), Eg. now rewrite <- app_assoc.
      * now rewrite (get_set_other _ _ _ _ (not_eq_sym Hk)).
    + rewrite groupByFolder_thrown. discriminate.
    + assert (Hne : contributionFolder r <> "__proto__") by congruence.
      intros H k.
      rewrite (IH _ _ (eq_trans (get_set_other _ _ _ _ (not_eq_sym Hne)) Hproto)
                  H k).
      destruct (String.eqb_spec (contributionFolder r) k) as [<- | Hk].
      * now rewrite (get_set_same _ _ _ Hne), Eg.
      * now rewrite (get_set_other _ _ _ _ (not_eq_sym Hk)).
Qed.

(** The mark kept for a circuit is that of the last outcome of the group. *)
Lemma resultByCircuit_get (group : list VerificationResult) :
  forall (acc : Js.object Cell) (circuit : string),
    circuit <> "__proto__" ->
    Js.get (fold_left (fun o result =>
                         Js.set o (circuitName result) (markOf result))
                      group acc) circuit
    = match find (fun r => String.eqb (circuitName r) circuit) (rev group) with
      | Some r => Js.Own (markOf r)
      | None => Js.get acc circuit
      end.
Proof.
  induction group as [|r group IH]; intros acc circuit Hc; cbn [fold_left rev];
    [reflexivity|].
  rewrite (IH _ _ Hc), find_app'.
  destruct (find _ (rev group)); [reflexivity|]. cbn [find].
  destruct (String.eqb_spec (circuitName r) circuit) as [<- | Hne].
  - now apply get_set_same.
  - apply get_set_other. congruence.
Qed.

Lemma resultByCircuit_proto (group : list VerificationResult) :
  forall acc : Js.object Cell,
    Js.get (fold_left (fun o result =>
                         Js.set o (circuitName result) (markOf result))
                      group acc) "__proto__"
    = Js.get acc "__proto__".
Proof.
  induction group as [|r group IH]; intros acc; cbn [fold_left]; [reflexivity|].
  rewrite IH.
  destruct (String.eqb_spec (circuitName r) "__proto__") as [-> | Hne];
    [reflexivity|].
  apply get_set_other. congruence.
Qed.

Lemma mapOrThrow_In {A B : Type} (f : A -> option B) (xs : list A) :
  forall ys y,
    mapOrThrow f xs = Some ys -> In y ys -> exists x, In x xs /\ f x = Some y.
Proof.
  induction xs as [|x xs IH]; cbn; intros ys y H Hy.
  - inversion H; subst. contradiction.
  - destruct (f x) as [y0|] eqn:Ef; [|discriminate].
    destruct (mapOrThrow f xs) as [ys0|]; [|discriminate].
    inversion H; subst. destruct Hy as [<- | Hy]; [eauto|].
    destruct (IH ys0 y eq_refl Hy) as (x' & Hx' & E). eauto.
Qed.

Lemma mapOrThrow_map {A B : Type} (f : A -> option B) (h : A -> B)
      (xs : list A) :
  forall ys,
    mapOrThrow f xs = Some ys ->
    (forall x y, In x xs -> f x = Some y -> y = h x) ->
    ys = map h xs.
Proof.
  induction xs as [|x xs IH]; cbn; intros ys H Hh.
  - now inversion H.
  - destruct (f x) as [y0|] eqn:Ef; [|discriminate].
    destruct (mapOrThrow f xs) as [ys0|]; [|discriminate].
    inversion H; subst. f_equal; [now apply Hh; auto|].
    apply IH; [reflexivity|]. intros x' y' Hx'. apply Hh. now right.
Qed.

(** X6: in a printed summary every row has one cell per column, and the
    cell of a folder and a circuit shows the mark of the last outcome of
    the list recorded for that folder and circuit, and "not applicable"
    when the list has none; every row belongs to a folder of the list. *)
Theorem summary_cells_show_last_outcome :
  forall (results : list VerificationResult) (table : SummaryTable),
    printResultsTable results = Some table ->
    forall folder cells,
      In (folder, cells) (rows table) ->
      cells = map (Report.cellFor results folder) (allCircuits table)
      /\ In folder (map contributionFolder results).
Proof.
  intros results table. unfold printResultsTable.
  destruct (fold_left groupByFolder results
                      (Some ([] : Js.object (list VerificationResult))))
    as [g|] eqn:Eg; [|intros H; discriminate H].
  destruct (mapOrThrow _ (Js.sortedKeys g)) as [rs|] eqn:Er;
    [|intros H; discriminate H].
  intros H. inversion H; subst table; clear H. cbn [rows allCircuits].
  intros folder cells Hrow.
  destruct (mapOrThrow_In _ _ _ _ Er Hrow) as (k & Hk & Hrowk).
  pose proof (groupByFolder_get results [] g eq_refl Eg k) as Hget.
  unfold rowOf in Hrowk.
  destruct (Js.get g k) as [group| |] eqn:Egk; try discriminate.
  destruct (mapOrThrow _ (Js.sort _)) as [cells'|] eqn:Ec; [|discriminate].
  inversion Hrowk; subst k cells'; clear Hrowk.
  remember (filter (fun r => String.eqb (contributionFolder r) folder) results)
    as mine eqn:Em.
  assert (Hgroup : group = mine /\ mine <> []).
  { unfold Js.get in Hget. cbn [find] in Hget.
    destruct (Js.isPrototypeKey folder);
      destruct mine; try discriminate; inversion Hget; split; congruence. }
  destruct Hgroup as [-> Hne]. split.
  - apply (mapOrThrow_map _ _ _ _ Ec). intros circuit y _ Hy.
    unfold cellOf, resultByCircuitOf in Hy.
    unfold Report.cellFor, Report.lastOutcome.
    destruct (String.eqb_spec circuit "__proto__") as [-> | Hc].
    + rewrite resultByCircuit_proto in Hy. discriminate Hy.
    + rewrite (resultByCircuit_get _ _ _ Hc) in Hy.
      rewrite Em in Hy. rewrite <- filter_rev, find_filter in Hy.
      destruct (find _ (rev results)); [now inversion Hy|].
      unfold Js.get in Hy. cbn [find] in Hy.
      destruct (Js.isPrototypeKey circuit);
        [discriminate | now inversion Hy].
  - destruct mine as [|r rest]; [congruence|].
    assert (Hr : In r (filter (fun r => String.eqb (contributionFolder r) folder)
                               results)) by (rewrite <- Em; now left).
    apply filter_In in Hr. destruct Hr as [Hr Hf].
    apply String.eqb_eq in Hf. subst folder. now apply in_map.
Qed.

(** X6 on the outcomes of the sample ceremony: bob has no outcome for
    circuit C. *)
Lemma summary_cells_witness :
  let results :=
    outcomes (fst (main Samples.ceremony Samples.rejectAlice
                        (SetupDone Samples.ptau) Samples.freshWorld)) in
  exists table,
    printResultsTable results = Some table
    /\ allCircuits table = ["A"; "C"]
    /\ In ("0002_bob", [PASS; NA]) (rows table)
    /\ [PASS; NA] = map (Report.cellFor results "0002_bob") (allCircuits table).
Proof.
  cbv zeta.
  match goal with
  | |- exists table, ?print = _ /\ _ =>
      destruct print as [table|] eqn:E; [|vm_compute in E; discriminate E]
  end.
  exists table. split; [reflexivity|].
  assert (Hc : allCircuits table = ["A"; "C"]).
  { vm_compute in E. inversion E. reflexivity. }
  assert (Hrow : In ("0002_bob", [PASS; NA]) (rows table)).
  { vm_compute in E. inversion E. cbn. tauto. }
  split; [exact Hc|]. split; [exact Hrow|].
  exact (proj1 (summary_cells_show_last_outcome _ table E _ _ Hrow)).
Defined.

Lemma printResultsTable_rows (results : list VerificationResult)
      (table : SummaryTable) :
  printResultsTable results = Some table ->
  map fst (rows table) = Js.sort (Js.distinct (map contributionFolder results)).
Proof.
  unfold printResultsTable.
  destruct (fold_left groupByFolder results
                      (Some ([] : Js.object (list VerificationResult))))
    as [g|] eqn:Eg; [|intros H; discriminate H].
  destruct (mapOrThrow _ (Js.sortedKeys g)) as [rs|] eqn:Er;
    [|intros H; discriminate H].
  intros H. inversion H; subst table; clear H. cbn [rows].
  apply rows_folders in Er. apply groupByFolder_keys in Eg. cbn [map] in Eg.
  rewrite Er. unfold Js.sortedKeys, Js.distinct. now rewrite Eg.
Qed.

Lemma StronglySorted_filter_lex (p : string -> bool) (l : list string) :
  StronglySorted lexLe l -> StronglySorted lexLe (filter p l).
Proof.
  induction 1 as [|x l Hs IH Hx]; cbn; [constructor|].
  destruct (p x); [|exact IH]. constructor; [exact IH|].
  rewrite Forall_forall in *. intros y Hy. apply Hx.
  now apply filter_In in Hy.
Qed.

Lemma chainOutcomes_In (fs : FileSystem) (shell : string -> Completion)
      (ptauFile initialFolder : string) (folders : list string)
      (folder zkeyFile : string) :
  In folder folders ->
  folderSkipped fs initialFolder folder = false ->
  In zkeyFile (Utils.getZkeyFiles fs folder) ->
  In (outcomeOf fs shell ptauFile initialFolder folder zkeyFile)
     (chainOutcomes fs shell ptauFile initialFolder folders).
Proof.
  intros Hf Hs Hz. unfold chainOutcomes. apply in_flat_map.
  exists folder. split; [exact Hf|]. unfold folderOutcomes. rewrite Hs.
  unfold artifactOutcomes. now apply in_map.
Qed.

(** X7: the summary of a run has exactly one row per verified folder, in
    chain order: the folders after the first whose own listing and the
    baseline's are both non-empty.  A skipped folder has no row. *)
Theorem run_summary_rows_are_the_verified_folders :
  forall (fs : FileSystem) (shell : string -> Completion) (ptauFile : string)
         (w : World) (results : list VerificationResult)
         (table : SummaryTable),
    let folders := Utils.getContributionFolders fs in
    let baseline := nth 0 folders "" in
    2 <= List.length folders ->
    NoDup folders ->
    fst (main fs shell (SetupDone ptauFile) w) = Summarised results table ->
    map fst (rows table)
    = filter (fun folder => negb (folderSkipped fs baseline folder))
             (tl folders).
Proof.
  intros fs shell ptauFile w results table folders baseline Hlen Hnodup Hrun.
  destruct (main_run_ending fs shell ptauFile w Hlen) as (w' & E & _).
  cbv zeta in E. fold folders in E. fold baseline in E.
  rewrite E in Hrun. cbn [fst] in Hrun.
  destruct (printResultsTable _) as [t|] eqn:Et; [|discriminate].
  inversion Hrun; subst results t; clear Hrun.
  rewrite (printResultsTable_rows _ _ Et). symmetry.
  assert (Htail : StronglySorted lexLe (tl folders) /\ NoDup (tl folders)).
  { pose proof (sort_sorted
                  (filter Utils.matchesOrdinalPrefix
                          (Utils.getDirectories fs Utils.contributionRootFolder)))
      as Hs.
    change (StronglySorted lexLe folders) in Hs.
    destruct Hs; [split; constructor|].
    cbn [tl]. split; [assumption | now inversion Hnodup]. }
  destruct Htail as [Hsorted Hnd].
  apply sort_unique; [|now apply StronglySorted_filter_lex].
  apply NoDup_Permutation.
  - now apply NoDup_filter.
  - apply distinct_step_NoDup. constructor.
  - intros x. rewrite distinct_In, filter_In, negb_true_iff, in_map_iff. split.
    + intros [Hx Hs].
      destruct (Utils.getZkeyFiles fs x) as [|zkeyFile rest] eqn:Ez.
      { assert (folderSkipped fs baseline x = true)
          by (apply folderSkipped_iff; now left). congruence. }
      exists (outcomeOf fs shell ptauFile baseline x zkeyFile). split.
      * apply outcomeOf_names.
      * apply chainOutcomes_In; [exact Hx | exact Hs|]. rewrite Ez. now left.
    + intros (r & <- & Hr). apply chainOutcomes_origin in Hr.
      destruct Hr as (folder & zkeyFile & Hf & Hs & _ & ->).
      destruct (outcomeOf_names fs shell ptauFile baseline folder zkeyFile)
        as [-> _].
      now split.
Qed.

(** X7 on a chain whose middle folder holds no parameter file. *)
Lemma run_summary_rows_witness :
  let fs := Samples.emptyContribution in
  exists results table,
    2 <= List.length (Utils.getContributionFolders fs)
    /\ NoDup (Utils.getContributionFolders fs)
    /\ fst (main fs Samples.acceptAll (SetupDone Samples.ptau)
                 Samples.freshWorld)
       = Summarised results table
    /\ map fst (rows table) = ["0002_bob"].
Proof.
  cbv zeta.
  assert (H : 2 <= List.length
                     (Utils.getContributionFolders Samples.emptyContribution))
    by (vm_compute; lia).
  assert (Hn : NoDup (Utils.getContributionFolders Samples.emptyContribution)).
  { vm_compute. repeat constructor; cbn; intuition discriminate. }
  destruct (fst (main Samples.emptyContribution Samples.acceptAll
                      (SetupDone Samples.ptau) Samples.freshWorld))
    as [| |results table|] eqn:E;
    try (vm_compute in E; discriminate E).
  exists results, table. split; [exact H|]. split; [exact Hn|].
  split; [reflexivity|].
  rewrite (run_summary_rows_are_the_verified_folders
             Samples.emptyContribution Samples.acceptAll Samples.ptau
             Samples.freshWorld results table H Hn E).
  vm_compute. reflexivity.
Defined.

(** ** The artifact locator, continued *)

Lemma Permutation_filter_same {A : Type} (p : A -> bool) (l l' : list A) :
  Permutation l l' -> Permutation (filter p l) (filter p l').
Proof.
  induction 1 as [|x l l' _ IH|x y l|l l' l'' _ IH1 _ IH2]; cbn.
  - constructor.
  - destruct (p x); [now constructor | exact IH].
  - destruct (p x), (p y); try reflexivity. apply perm_swap.
  - now transitivity (filter p l').
Qed.

(** X8: the chain does not depend on the order in which the contribution
    root is listed: two listings with the same entries give the same
    folder list. *)
Theorem getContributionFolders_ignores_listing_order :
  forall fs fs' : FileSystem,
    Permutation (fs Utils.contributionRootFolder)
                (fs' Utils.contributionRootFolder) ->
    Utils.getContributionFolders fs = Utils.getContributionFolders fs'.
Proof.
  intros fs fs' Hperm. unfold Utils.getContributionFolders.
  apply sort_unique; [|apply sort_sorted].
  rewrite sort_perm. apply Permutation_filter_same.
  unfold Utils.getDirectories. apply Permutation_map.
  now apply Permutation_filter_same.
Qed.

(** X8 on the sample ceremony listed the other way round. *)
Lemma listing_order_witness :
  Permutation (Samples.ceremony Utils.contributionRootFolder)
              (Samples.ceremonyReversed Utils.contributionRootFolder)
  /\ Utils.getContributionFolders Samples.ceremony
     = Utils.getContributionFolders Samples.ceremonyReversed.
Proof.
  assert (H : Permutation (Samples.ceremony Utils.contributionRootFolder)
                          (Samples.ceremonyReversed Utils.contributionRootFolder))
    by apply Permutation_rev.
  split; [exact H|].
  exact (getContributionFolders_ignores_listing_order _ _ H).
Defined.

Lemma filter_first {A : Type} (p : A -> bool) (l : list A) :
  forall x rest,
    filter p l = x :: rest ->
    exists before after,
      l = (before ++ x :: after)%list
      /\ (forall y, In y before -> p y = false)
      /\ p x = true.
Proof.
  induction l as [|y l IH]; cbn; intros x rest H; [discriminate|].
  destruct (p y) eqn:Ey.
  - inversion H; subst. exists [], l. repeat split; auto. intros ? [].
  - destruct (IH x rest H) as (before & after & -> & Hb & Hx).
    exists (y :: before), after. repeat split; auto.
    intros z [<- | Hz]; auto.
Qed.


(** ** Files left out of the comparison with the bucket *)

Lemma prefix_dot_underscore (dir name : string) :
  String.prefix "._" (dir ++ "/" ++ name) = String.prefix "._" dir.
Proof.
  destruct dir as [|a [|b rest]]; cbn [String.prefix append].
  - reflexivity.
  - destruct (Ascii.ascii_dec "." a); reflexivity.
  - destruct (Ascii.ascii_dec "." a), (Ascii.ascii_dec "_" b);
      try reflexivity.
    now destruct rest.
Qed.

Lemma slashFree_append (a b : string) :
  Path.slashFree (a ++ b) = Path.slashFree a && Path.slashFree b.
Proof.
  unfold Path.slashFree. induction a as [|c a IH]; cbn; [reflexivity|].
  now rewrite IH, andb_assoc.
Qed.

Lemma nested_is_not_a_name (dir name fixed : string) :
  Path.slashFree fixed = true -> String.eqb (dir ++ "/" ++ name) fixed = false.
Proof.
  intros Hfree. apply String.eqb_neq. intros E.
  rewrite <- E, slashFree_append in Hfree.
  apply andb_true_iff in Hfree. destruct Hfree as [_ H]. discriminate H.
Qed.

(** X10: [shouldIgnoreFile] holds exactly for the three fixed names and
    for the paths that start with [._]; it compares the whole relative
    path, so a file inside a subdirectory is ignored only when the path of
    the subdirectory starts with [._], whatever the name of the file. *)
Theorem shouldIgnoreFile_characterised :
  (forall file : string,
      Storage.shouldIgnoreFile file = true
      <-> file = ".DS_Store" \/ file = "Thumbs.db" \/ file = ".directory"
          \/ String.prefix "._" file = true)
  /\ (forall dir name : string,
         Storage.shouldIgnoreFile (dir ++ "/" ++ name) = String.prefix "._" dir).
Proof.
  assert (Hunfold :
            forall file,
              Storage.shouldIgnoreFile file
              = String.eqb file ".DS_Store"
                || (String.eqb file "Thumbs.db"
                    || (String.eqb file ".directory"
                        || (String.prefix "._" file || false))))
    by reflexivity.
  split.
  - intros file.
    rewrite Hunfold, !orb_true_iff, !String.eqb_eq. intuition discriminate.
  - intros dir name. rewrite Hunfold.
    rewrite !nested_is_not_a_name by reflexivity.
    rewrite prefix_dot_underscore. cbn [orb]. apply orb_false_r.
Qed.

(** ** The AWS command line *)

Section CliRuns.

Variable shell : string -> Completion.
Variable stdout : string -> string.

Lemma isAwsCliAvailable_run (w : World) :
  Storage.isAwsCliAvailable shell stdout w
  = (match shell "aws --version" with Normal => true | Throws _ => false end,
     {| console := console w;
        spawned := (spawned w ++ ["aws --version"])%list |}).
Proof.
  unfold Storage.isAwsCliAvailable, Storage.execSyncWith, bind, ret.
  now destruct (shell "aws --version").
Qed.

Lemma runAwsCommand_run (command : string) (stdio : Storage.Stdio)
      (w : World) :
  Storage.runAwsCommand shell stdout command stdio w
  = match shell "aws --version" with
    | Throws _ =>
        (if JsText.includes command "s3 cp"
            && JsText.includes command "--recursive"
         then Storage.Raises
                (ErrorObject
                   "AWS CLI not available or not compatible with current environment.")
         else Storage.Returns (Some ""),
         {| console :=
              (console w
                 ++ [(Stderr,
                      "AWS CLI not available or not compatible with current environment.")
                    ])%list;
            spawned := (spawned w ++ ["aws --version"])%list |})
    | Normal =>
        (match shell command with
         | Throws _ => Storage.Returns (Some "")
         | Normal =>
             Storage.Returns
               match stdio with
               | Storage.Pipe => Some (stdout command)
               | Storage.Inherit | Storage.Ignore => None
               end
         end,
         {| console :=
              match shell command, stdio with
              | Normal, _ | Throws _, Storage.Ignore => console w
              | Throws _, _ =>
                  (console w
                     ++ [(Stderr, ("Command failed: " ++ command)%string);
                         (Stderr,
                          "This may be due to architecture compatibility issues in Docker.")
                        ])%list
              end;
            spawned := (spawned w ++ ["aws --version"; command])%list |})
    end.
Proof.
  unfold Storage.runAwsCommand, Storage.isAwsCliAvailable,
    Storage.execSyncWith, Storage.console_warn, console_error, bind, ret.
  destruct (shell "aws --version"); cbn.
  - destruct (shell command), stdio; cbn; rewrite <- ?app_assoc; reflexivity.
  - destruct (JsText.includes command "s3 cp"
              && JsText.includes command "--recursive"); reflexivity.
Qed.

(** X11: [runAwsCommand] probes the command line with [aws --version]
    before anything else.  When the probe fails the command is never
    spawned, and the call throws exactly when the command is a recursive
    copy, returning the empty string otherwise.  When the probe works the
    command is spawned once and the call never throws: a failing command
    gives the empty string, a completed one its piped output, or [null]
    when the output is not piped. *)
Theorem runAwsCommand_probe_then_command :
  forall (command : string) (stdio : Storage.Stdio) (w : World),
    let run := Storage.runAwsCommand shell stdout command stdio w in
    match shell "aws --version" with
    | Throws _ =>
        spawned (snd run) = (spawned w ++ ["aws --version"])%list
        /\ fst run
           = if JsText.includes command "s3 cp"
                && JsText.includes command "--recursive"
             then Storage.Raises
                    (ErrorObject
                       "AWS CLI not available or not compatible with current environment.")
             else Storage.Returns (Some "")
    | Normal =>
        spawned (snd run) = (spawned w ++ ["aws --version"; command])%list
        /\ fst run
           = match shell command with
             | Throws _ => Storage.Returns (Some "")
             | Normal =>
                 Storage.Returns
                   match stdio with
                   | Storage.Pipe => Some (stdout command)
                   | Storage.Inherit | Storage.Ignore => None
                   end
             end
    end.
Proof.
  intros command stdio w run. subst run. rewrite runAwsCommand_run.
  destruct (shell "aws --version"); cbn [fst snd spawned]; split; reflexivity.
Qed.

End CliRuns.

(** ** One outcome per folder and circuit *)

Lemma NoDup_flat_map_disjoint {A B : Type} (f : A -> list B) (l : list A) :
  (forall x, In x l -> NoDup (f x)) ->
  (forall x y b, In x l -> In y l -> In b (f x) -> In b (f y) -> x = y) ->
  NoDup l ->
  NoDup (flat_map f l).
Proof.
  intros Hf Hdis Hl. induction Hl as [|x l Hx Hl IH]; cbn; [constructor|].
  apply NoDup_app.
  - apply Hf. now left.
  - apply IH.
    + intros y Hy. apply Hf. now right.
    + intros y z b Hy Hz. apply Hdis; now right.
  - intros b Hb Hin. apply in_flat_map in Hin. destruct Hin as (y & Hy & Hby).
    assert (x = y) by (apply (Hdis x y b); auto; [now left | now right]).
    subst y. contradiction.
Qed.

Lemma NoDup_map_injective_on {A B : Type} (f : A -> B) (l : list A) :
  (forall a b, In a l -> In b l -> f a = f b -> a = b) ->
  NoDup l -> NoDup (map f l).
Proof.
  intros Hinj Hl. induction Hl as [|x l Hx Hl IH]; cbn; constructor.
  - intros Hin. apply in_map_iff in Hin. destruct Hin as (y & Hy & Hyl).
    assert (y = x) by (apply Hinj; auto; [now right | now left]).
    subst y. contradiction.
  - apply IH. intros a b Ha Hb. apply Hinj; now right.
Qed.

Lemma circuit_of_artifact_injective (a b : string) :
  Path.slashFree a = true -> Js.endsWith a ".zkey" = true ->
  Path.slashFree b = true -> Js.endsWith b ".zkey" = true ->
  Path.basename a (Some ".zkey") = Path.basename b (Some ".zkey") ->
  a = b.
Proof.
  intros Fa Ea Fb Eb H.
  rewrite <- (basename_zkey a Fa Ea), <- (basename_zkey b Fb Eb).
  now rewrite H.
Qed.

(** X13: when the folder names of the chain are distinct and every
    contribution folder lists distinct entry names without a path
    separator, as a directory does, a run records at most one outcome per
    folder and circuit name. *)
Theorem run_records_one_outcome_per_folder_and_circuit :
  forall (fs : FileSystem) (shell : string -> Completion) (ptauFile : string)
         (w : World),
    let folders := Utils.getContributionFolders fs in
    let run := main fs shell (SetupDone ptauFile) w in
    NoDup folders ->
    (forall folder,
        In folder (tl folders) ->
        NoDup (Utils.getZkeyFiles fs folder)
        /\ Forall (fun file => Path.slashFree file = true)
                  (Utils.getZkeyFiles fs folder)) ->
    NoDup (map (fun r => (contributionFolder r, circuitName r))
               (outcomes (fst run))).
Proof.
  intros fs shell ptauFile w folders run Hnd Hwf.
  destruct (Nat.lt_ge_cases (List.length folders) 2) as [Hlt | Hge].
  { subst run. rewrite (main_nothing_to_verify fs shell ptauFile w Hlt).
    constructor. }
  destruct (main_run fs shell ptauFile w Hge) as (e & w' & E & Hacc & _).
  fold folders in Hacc. subst run. rewrite E. cbn [fst].
  unfold outcomes. rewrite Hacc. unfold chainOutcomes.
  rewrite flat_map_concat_map, concat_map, map_map, <- flat_map_concat_map.
  assert (Hkeys : forall folder,
             map (fun r => (contributionFolder r, circuitName r))
                 (folderOutcomes fs shell ptauFile (nth 0 folders "") folder)
             = if folderSkipped fs (nth 0 folders "") folder then []
               else map (fun zkeyFile =>
                           (folder, Path.basename zkeyFile (Some ".zkey")))
                        (Utils.getZkeyFiles fs folder)).
  { intros folder. unfold folderOutcomes, artifactOutcomes.
    destruct (folderSkipped _ _ _); [reflexivity|]. rewrite map_map.
    apply map_ext. intros zkeyFile.
    destruct (outcomeOf_names fs shell ptauFile (nth 0 folders "") folder
                              zkeyFile) as [-> ->].
    reflexivity. }
  apply NoDup_flat_map_disjoint.
  - intros folder Hf. rewrite Hkeys.
    destruct (folderSkipped _ _ _); [constructor|].
    destruct (Hwf folder Hf) as [Hnames Hfree].
    rewrite Forall_forall in Hfree.
    apply NoDup_map_injective_on; [|exact Hnames].
    intros a b Ha Hb Hab. inversion Hab as [Heq].
    apply circuit_of_artifact_injective; auto;
      eapply getZkeyFiles_endsWith; eauto.
  - intros x y b _ _ Hx Hy. rewrite Hkeys in Hx, Hy.
    destruct (folderSkipped fs (nth 0 folders "") x); [contradiction|].
    destruct (folderSkipped fs (nth 0 folders "") y); [contradiction|].
    apply in_map_iff in Hx, Hy.
    destruct Hx as (? & <- & _). destruct Hy as (? & Heq & _).
    now inversion Heq.
  - destruct folders; [constructor | now inversion Hnd].
Qed.

(** X13 on the sample ceremony. *)
Lemma one_outcome_per_cell_witness :
  let fs := Samples.ceremony in
  let run :=
    main fs Samples.rejectAlice (SetupDone Samples.ptau) Samples.freshWorld in
  NoDup (Utils.getContributionFolders fs)
  /\ map (fun r => (contributionFolder r, circuitName r)) (outcomes (fst run))
     = [("0001_alice", "A"); ("0001_alice", "C"); ("0002_bob", "A")]
  /\ NoDup (map (fun r => (contributionFolder r, circuitName r))
                (outcomes (fst run))).
Proof.
  cbv zeta.
  assert (Hn : NoDup (Utils.getContributionFolders Samples.ceremony)).
  { vm_compute. repeat constructor; cbn; intuition discriminate. }
  split; [exact Hn|]. split; [vm_compute; reflexivity|].
  apply (run_records_one_outcome_per_folder_and_circuit
           Samples.ceremony Samples.rejectAlice Samples.ptau
           Samples.freshWorld Hn).
  intros folder Hf. vm_compute in Hf.
  destruct Hf as [<- | [<- | []]]; vm_compute;
    split; repeat constructor; cbn; intuition discriminate.
Defined.

(** X14: the circuit name of an outcome is the file name of its artifact
    without the extension: adding [.zkey] to it gives the file name back,
    for every artifact of a listing whose names hold no path separator.  An
    artifact named [.zkey] alone gets the empty circuit name. *)
Theorem circuit_name_restores_file_name :
  forall (fs : FileSystem) (shell : string -> Completion)
         (ptauFile initialFolder folder zkeyFile : string),
    In zkeyFile (Utils.getZkeyFiles fs folder) ->
    Path.slashFree zkeyFile = true ->
    let outcome := outcomeOf fs shell ptauFile initialFolder folder zkeyFile in
    (circuitName outcome ++ ".zkey")%string = zkeyFile
    /\ (circuitName outcome = "" <-> zkeyFile = ".zkey").
Proof.
  intros fs shell ptauFile initialFolder folder zkeyFile Hin Hfree outcome.
  pose proof (getZkeyFiles_endsWith fs folder zkeyFile Hin) as Hends.
  destruct (outcomeOf_names fs shell ptauFile initialFolder folder zkeyFile)
    as [_ Hname].
  subst outcome. rewrite Hname.
  pose proof (basename_zkey zkeyFile Hfree Hends) as Hback.
  split; [exact Hback|]. split.
  - intros Hempty. now rewrite Hempty in Hback.
  - intros ->. reflexivity.
Qed.

(** X14 on an artifact of the sample ceremony. *)
Lemma circuit_name_witness :
  let outcome :=
    outcomeOf Samples.ceremony Samples.acceptAll Samples.ptau "0000_initial"
              "0001_alice" "C.zkey" in
  In "C.zkey" (Utils.getZkeyFiles Samples.ceremony "0001_alice")
  /\ circuitName outcome = "C"
  /\ (circuitName outcome ++ ".zkey")%string = "C.zkey".
Proof.
  cbv zeta.
  assert (H : In "C.zkey" (Utils.getZkeyFiles Samples.ceremony "0001_alice"))
    by (vm_compute; tauto).
  split; [exact H|]. split; [reflexivity|].
  exact (proj1 (circuit_name_restores_file_name
                  Samples.ceremony Samples.acceptAll Samples.ptau
                  "0000_initial" "0001_alice" "C.zkey" H eq_refl)).
Defined.

(** ** The remaining functions at work *)

Example nested_system_file_is_not_ignored :
  Storage.shouldIgnoreFile ".DS_Store" = true
  /\ Storage.shouldIgnoreFile "._A.zkey" = true
  /\ Storage.shouldIgnoreFile "backup/.DS_Store" = false.
Proof. repeat split. Qed.

(** * The run on a disk whose directories may fail to be listed *)

Section DiskRuns.

Variable disk : OnDisk.Disk.
Variable shell : string -> Completion.

Lemma getZkeyFiles_on_disk (directory : string) :
  OnDisk.getZkeyFiles disk directory
  = match disk (Path.join [Utils.contributionRootFolder; directory]) with
    | OnDisk.Listed _ =>
        OnDisk.Done (Utils.getZkeyFiles (OnDisk.snapshot disk) directory)
    | OnDisk.Unreadable message => OnDisk.Failed message
    end.
Proof.
  unfold OnDisk.getZkeyFiles, OnDisk.readdirSync, Utils.getZkeyFiles,
    Utils.readdirSync, OnDisk.snapshot.
  now destruct (disk _).
Qed.

Lemma getContributionFolders_on_disk :
  OnDisk.getContributionFolders disk
  = match disk Utils.contributionRootFolder with
    | OnDisk.Listed _ =>
        OnDisk.Done (Utils.getContributionFolders (OnDisk.snapshot disk))
    | OnDisk.Unreadable message => OnDisk.Failed message
    end.
Proof.
  unfold OnDisk.getContributionFolders, OnDisk.getDirectories,
    Utils.getContributionFolders, Utils.getDirectories, OnDisk.snapshot.
  now destruct (disk _).
Qed.

Lemma listable_listed (folder : string) :
  OnDisk.listable disk folder ->
  exists entries,
    disk (Path.join [Utils.contributionRootFolder; folder])
    = OnDisk.Listed entries.
Proof.
  unfold OnDisk.listable. destruct (disk _) as [entries|]; [eauto | tauto].
Qed.

(** The call on a folder that can be listed, the baseline too, is the call
    on the snapshot. *)
Lemma verifyContribution_listable
      (contributionFolder initialFolder ptauFile : string)
      (results : list VerificationResult) (w : World) :
  OnDisk.listable disk contributionFolder ->
  OnDisk.listable disk initialFolder ->
  OnDisk.verifyContribution disk shell contributionFolder initialFolder
                            ptauFile results w
  = let done :=
      verifyContribution (OnDisk.snapshot disk) shell contributionFolder
                         initialFolder ptauFile results w in
    ((OnDisk.Done (fst (fst done)), snd (fst done)), snd done).
Proof.
  intros Hc Hi.
  destruct (listable_listed _ Hc) as (ec & Ec).
  destruct (listable_listed _ Hi) as (ei & Ei).
  unfold OnDisk.verifyContribution, verifyContribution.
  rewrite !getZkeyFiles_on_disk, Ec, Ei.
  unfold bind, console_log, console_error, ret. cbv beta iota zeta.
  destruct (Nat.eqb (List.length (Utils.getZkeyFiles (OnDisk.snapshot disk)
                                                     contributionFolder)) 0);
    [reflexivity|].
  destruct (Nat.eqb (List.length (Utils.getZkeyFiles (OnDisk.snapshot disk)
                                                     initialFolder)) 0);
    [reflexivity|].
  match goal with
  | |- context [forOf ?body ?xs ?s ?w0] => destruct (forOf body xs s w0)
  end.
  reflexivity.
Qed.


Lemma forOfTry_map {A B C S : Type} (f : A -> B)
      (body : B -> S -> IO (OnDisk.Try C * S)) (xs : list A) :
  forall (s : S) (w : World),
    OnDisk.forOfTry (fun x => body (f x)) xs s w
    = OnDisk.forOfTry body (map f xs) s w.
Proof.
  induction xs as [|x xs IH]; intros s w; cbn [OnDisk.forOfTry map];
    [reflexivity|].
  unfold bind. destruct (body (f x) s w) as [[[v|m] s'] w']; cbn [fst snd];
    [apply IH | reflexivity].
Qed.

Lemma forOf_cons {A S : Type} (body : A -> S -> IO S) (x : A) (xs : list A)
      (s : S) (w : World) :
  forOf body (x :: xs) s w
  = forOf body xs (fst (body x s w)) (snd (body x s w)).
Proof. cbn [forOf]. unfold bind. now destruct (body x s w). Qed.

Lemma forOfTry_cons_done {A B S : Type} (body : A -> S -> IO (OnDisk.Try B * S))
      (x : A) (xs : list A) (s s' : S) (w w' : World) (v : B) :
  body x s w = ((OnDisk.Done v, s'), w') ->
  OnDisk.forOfTry body (x :: xs) s w = OnDisk.forOfTry body xs s' w'.
Proof. intros E. cbn [OnDisk.forOfTry]. unfold bind. now rewrite E. Qed.


Lemma chainStep_run (ptauFile initialFolder folder : string)
      (results : list VerificationResult) (w : World) :
  chainStep (OnDisk.snapshot disk) shell ptauFile initialFolder folder
            results w
  = let done :=
      verifyContribution (OnDisk.snapshot disk) shell folder initialFolder
                         ptauFile results w in
    (snd (fst done), snd done).
Proof.
  unfold chainStep, bind, ret. now destruct (verifyContribution _ _ _ _ _ _ _).
Qed.

(** Over folders that can all be listed the loop is the loop on the
    snapshot. *)
Lemma chainLoop_listable (ptauFile initialFolder : string)
      (folders : list string) :
  OnDisk.listable disk initialFolder ->
  Forall (OnDisk.listable disk) folders ->
  forall (results : list VerificationResult) (w : World),
    OnDisk.forOfTry
      (fun folder verificationResults =>
         OnDisk.verifyContribution disk shell folder initialFolder ptauFile
                                   verificationResults)
      folders results w
    = let done :=
        forOf (chainStep (OnDisk.snapshot disk) shell ptauFile initialFolder)
              folders results w in
      ((OnDisk.Done tt, fst done), snd done).
Proof.
  intros Hi Hall. induction Hall as [|folder folders Hf _ IH];
    intros results w; [reflexivity|].
  rewrite (forOfTry_cons_done
             (fun folder0 verificationResults =>
                OnDisk.verifyContribution disk shell folder0 initialFolder
                                          ptauFile verificationResults)
             folder folders _ _ _ _ _
             (verifyContribution_listable _ _ _ _ _ Hf Hi)).
  rewrite IH, forOf_cons, chainStep_run. reflexivity.
Qed.


Lemma main_over_the_chain (fs : FileSystem) (ptauFile : string) (w : World) :
  let folders := Utils.getContributionFolders fs in
  2 <= List.length folders ->
  main fs shell (SetupDone ptauFile) w
  = let done :=
      forOf (chainStep fs shell ptauFile (nth 0 folders "")) (tl folders) []
            {| console :=
                 (console w
                    ++ [(Stdout,
                         ("Found " ++ Js.ofNat (List.length folders)
                                   ++ " contributions")%string)])%list;
               spawned := spawned w |} in
    (match printResultsTable (fst done) with
     | Some table => Summarised (fst done) table
     | None => ExitInSummary (fst done)
     end, snd done).
Proof.
  intros folders Hlen. unfold main. fold folders.
  unfold bind at 1. cbn [console_log].
  destruct (Nat.ltb_spec (List.length folders) 2) as [Hlt | _]; [lia|].
  unfold bind at 1.
  rewrite (forOf_map (fun i => nth i folders "")
                     (chainStep fs shell ptauFile (nth 0 folders ""))).
  rewrite nth_indices_tail. cbv zeta.
  match goal with
  | |- context [forOf ?body ?xs ?s ?w0] =>
      destruct (forOf body xs s w0) as [rs w1]
  end.
  cbn [fst snd]. destruct (printResultsTable rs); reflexivity.
Qed.

(** On a disk where the contribution root and the folders of the chain can
    be listed, the run is the run on the snapshot. *)
Lemma main_on_listable_disk (setup : Setup) (w : World) :
  OnDisk.getContributionFolders disk
  = OnDisk.Done (Utils.getContributionFolders (OnDisk.snapshot disk)) ->
  Forall (OnDisk.listable disk)
         (Utils.getContributionFolders (OnDisk.snapshot disk)) ->
  OnDisk.main disk shell setup w
  = let run := main (OnDisk.snapshot disk) shell setup w in
    (OnDisk.lift (fst run), snd run).
Proof.
  intros Hroot Hall. destruct setup as [|ptauFile]; [reflexivity|].
  destruct (Nat.lt_ge_cases
              (List.length (Utils.getContributionFolders
                              (OnDisk.snapshot disk))) 2) as [Hlt | Hge].
  - rewrite (main_nothing_to_verify _ _ _ _ Hlt).
    unfold OnDisk.main. rewrite Hroot. unfold bind at 1. cbn [console_log].
    destruct (Nat.ltb_spec
                (List.length (Utils.getContributionFolders
                                (OnDisk.snapshot disk))) 2) as [_ | Hge];
      [|lia].
    unfold bind, console_log, ret. cbn. now rewrite <- !app_assoc.
  - rewrite (main_over_the_chain _ _ _ Hge). cbv zeta.
    unfold OnDisk.main. rewrite Hroot.
    set (folders := Utils.getContributionFolders (OnDisk.snapshot disk)) in *.
    unfold bind at 1. cbn [console_log].
    destruct (Nat.ltb_spec (List.length folders) 2) as [Hlt | _]; [lia|].
    assert (Hbase : OnDisk.listable disk (nth 0 folders "")).
    { rewrite Forall_forall in Hall. apply Hall. apply nth_In. lia. }
    assert (Htail : Forall (OnDisk.listable disk) (tl folders)).
    { destruct folders; [constructor | now inversion Hall]. }
    unfold bind at 1.
    rewrite (forOfTry_map
               (fun i => nth i folders "")
               (fun folder verificationResults =>
                  OnDisk.verifyContribution disk shell folder
                                            (nth 0 folders "") ptauFile
                                            verificationResults)).
    rewrite nth_indices_tail.
    rewrite (chainLoop_listable _ _ _ Hbase Htail). cbv zeta.
    match goal with
    | |- context [forOf ?body ?xs ?s ?w0] =>
        destruct (forOf body xs s w0) as [rs w1]
    end.
    cbn [fst snd]. destruct (printResultsTable rs); reflexivity.
Qed.

End DiskRuns.


Lemma folders_of_listed_root (disk : OnDisk.Disk) (folders : list string) :
  OnDisk.getContributionFolders disk = OnDisk.Done folders ->
  Utils.getContributionFolders (OnDisk.snapshot disk) = folders.
Proof.
  rewrite getContributionFolders_on_disk.
  destruct (disk Utils.contributionRootFolder); congruence.
Qed.





(** ** The run that prints the summary *)

(** X4: when the contribution root and every folder of the chain can be
    listed, a run over two folders or more ends with the printed summary
    and without the exit code one, whatever the verifier did, as long as
    no circuit is named like a member of [Object.prototype]. *)
Theorem run_on_listable_disk_prints_the_summary :
  forall (disk : OnDisk.Disk) (shell : string -> Completion)
         (ptauFile : string) (w : World) (folders : list string),
    let run := OnDisk.main disk shell (SetupDone ptauFile) w in
    OnDisk.getContributionFolders disk = OnDisk.Done folders ->
    2 <= List.length folders ->
    Forall (OnDisk.listable disk) folders ->
    (forall folder zkeyFile,
        In folder (tl folders) ->
        In zkeyFile (Utils.getZkeyFiles (OnDisk.snapshot disk) folder) ->
        Js.isPrototypeKey (Path.basename zkeyFile (Some ".zkey")) = false) ->
    exists results table,
      fst run = OnDisk.Summarised results table
      /\ printResultsTable results = Some table
      /\ OnDisk.exitsWithOne (fst run) = false.
Proof.
  intros disk shell ptauFile w folders run Hroot Hlen Hall Hnames.
  pose proof (folders_of_listed_root _ _ Hroot) as Hfolders.
  rewrite <- Hfolders in Hroot, Hlen, Hall, Hnames.
  destruct (listed_run_prints_the_summary (OnDisk.snapshot disk) shell
                                          ptauFile w Hlen Hnames)
    as (results & table & E & Ht).
  exists results, table. subst run.
  rewrite (main_on_listable_disk disk shell _ w Hroot Hall).
  cbv zeta. cbn [fst]. rewrite E. cbn [OnDisk.lift OnDisk.exitsWithOne].
  auto.
Qed.

(** X4 on the sample ceremony, with a verifier that rejects alice. *)
Lemma run_on_listable_disk_witness :
  let disk := OnDisk.readable Samples.ceremony in
  let run :=
    OnDisk.main disk Samples.rejectAlice (SetupDone Samples.ptau)
                Samples.freshWorld in
  OnDisk.getContributionFolders disk
  = OnDisk.Done ["0000_initial"; "0001_alice"; "0002_bob"]
  /\ exists results table,
       fst run = OnDisk.Summarised results table
       /\ printResultsTable results = Some table
       /\ OnDisk.exitsWithOne (fst run) = false.
Proof.
  cbv zeta.
  assert (Hroot : OnDisk.getContributionFolders
                    (OnDisk.readable Samples.ceremony)
                  = OnDisk.Done ["0000_initial"; "0001_alice"; "0002_bob"])
    by (vm_compute; reflexivity).
  split; [exact Hroot|].
  apply (run_on_listable_disk_prints_the_summary
           (OnDisk.readable Samples.ceremony) Samples.rejectAlice
           Samples.ptau Samples.freshWorld
           ["0000_initial"; "0001_alice"; "0002_bob"] Hroot).
  - cbn. lia.
  - repeat constructor.
  - intros folder zkeyFile Hf Hz. cbn [tl] in Hf.
    destruct Hf as [<- | [<- | []]]; vm_compute in Hz;
      repeat (destruct Hz as [<- | Hz]; [reflexivity|]); contradiction.
Defined.

(** ** The circuit description of the baseline, on a disk *)

(** X9: [getCircuitR1cs] throws in two cases only: the error of
    [fs.readdirSync] when the folder, read under the contribution root,
    cannot be listed, and an error whose message names the folder when
    the listing holds no entry ending in [.r1cs].  Otherwise it returns
    the first such entry of the listing, joined to the folder name alone:
    the returned path does not start at the contribution root. *)
Theorem getCircuitR1cs_listing_error_or_first_description :
  forall (disk : OnDisk.Disk) (initialFolder : string),
    let folder := Path.join [Utils.contributionRootFolder; initialFolder] in
    (forall message,
        OnDisk.getCircuitR1cs disk initialFolder = OnDisk.Failed message
        <-> disk folder = OnDisk.Unreadable message
            \/ exists entries,
                disk folder = OnDisk.Listed entries
                /\ (forall file,
                       In file (map name entries) ->
                       Js.endsWith file ".r1cs" = false)
                /\ message
                   = ("No .r1cs files found in " ++ initialFolder)%string)
    /\ (forall path,
           OnDisk.getCircuitR1cs disk initialFolder = OnDisk.Done path ->
           exists entries before first after,
             disk folder = OnDisk.Listed entries
             /\ map name entries = (before ++ first :: after)%list
             /\ (forall file, In file before -> Js.endsWith file ".r1cs" = false)
             /\ Js.endsWith first ".r1cs" = true
             /\ path = Path.join [initialFolder; first]).
Proof.
  intros disk initialFolder folder.
  unfold OnDisk.getCircuitR1cs, OnDisk.readdirSync. fold folder.
  destruct (disk folder) as [entries | failure].
  - destruct (filter (fun file => Js.endsWith file ".r1cs") (map name entries))
      as [|first rest] eqn:Ef.
    + split.
      * intros message. split.
        -- intros H. inversion H. right. exists entries.
           split; [reflexivity|]. split; [|reflexivity].
           intros file Hin.
           destruct (Js.endsWith file ".r1cs") eqn:E; [|reflexivity].
           assert (In file []) by (rewrite <- Ef; apply filter_In; auto).
           contradiction.
        -- intros [H | (entries' & _ & _ & ->)]; [discriminate H | reflexivity].
      * intros path H. discriminate H.
    + destruct (filter_first _ _ _ _ Ef) as (before & after & Hl & Hb & Hx).
      split.
      * intros message. split; [intros H; discriminate H|].
        intros [H | (entries' & He & Hnone & _)]; [discriminate H|].
        inversion He; subst entries'.
        rewrite (Hnone first) in Hx; [discriminate Hx|].
        rewrite Hl. apply in_or_app. right. now left.
      * intros path H. inversion H; subst path.
        exists entries, before, first, after. auto.
  - split.
    + intros message. split.
      * intros H. inversion H. now left.
      * intros [H | (entries & H & _)]; [now inversion H | discriminate H].
    + intros path H. discriminate H.
Qed.

Example circuit_description_of_the_baseline :
  OnDisk.getCircuitR1cs (OnDisk.readable Samples.ceremony) "0000_initial"
  = OnDisk.Done "0000_initial/circuits.r1cs"
  /\ OnDisk.getCircuitR1cs (OnDisk.readable Samples.ceremony) "0001_alice"
     = OnDisk.Failed "No .r1cs files found in 0001_alice"
  /\ OnDisk.getCircuitR1cs Samples.noBaseline "0000_initial"
     = OnDisk.Failed
         "ENOENT: no such file or directory, scandir 'contributions/0000_initial'".
Proof. repeat split; vm_compute; reflexivity. Qed.

(** ** The upload, with probes that need not agree *)

Lemma includes_app_r (a b search : string) :
  JsText.includes b search = true ->
  JsText.includes (a ++ b) search = true.
Proof.
  intros H. induction a as [|c a IH]; [exact H|].
  cbn [append JsText.includes]. rewrite IH. apply orb_true_r.
Qed.

Lemma uploadCommand_is_recursive_copy (S3BUCKET : option string)
      (folderName : string) :
  JsText.includes (Storage.uploadCommand S3BUCKET folderName) "s3 cp"
  && JsText.includes (Storage.uploadCommand S3BUCKET folderName) "--recursive"
  = true.
Proof.
  unfold Storage.uploadCommand. apply andb_true_intro. split.
  - apply (includes_app_r "aws " ("s3 cp " ++ _)). reflexivity.
  - apply (includes_app_r "aws s3 cp "). apply includes_app_r.
    apply (includes_app_r " "). apply includes_app_r. reflexivity.
Qed.

Lemma last_app_cons {A : Type} (l : list A) (x : A) (m : list A) (d : A) :
  last (l ++ x :: m) d = last (x :: m) d.
Proof.
  induction l as [|y l IH]; [reflexivity|].
  cbn [app]. rewrite <- IH. cbn [last].
  now destruct (l ++ x :: m)%list eqn:E; [destruct l; discriminate E|].
Qed.

Section TimedRuns.

Variable S3BUCKET : option string.
Variable shellAt : list string -> string -> Completion.
Variable stdoutAt : list string -> string -> string.
Variable inspect : Thrown -> string.

Lemma isAwsCliAvailable_at (w : World) :
  Cli.isAwsCliAvailable shellAt stdoutAt w
  = (match shellAt (spawned w) "aws --version" with
     | Normal => true
     | Throws _ => false
     end,
     {| console := console w;
        spawned := (spawned w ++ ["aws --version"])%list |}).
Proof.
  unfold Cli.isAwsCliAvailable, Cli.execSyncWith, bind, ret.
  now destruct (shellAt (spawned w) "aws --version").
Qed.

Lemma runAwsCommand_at (command : string) (stdio : Storage.Stdio)
      (w : World) :
  Cli.runAwsCommand shellAt stdoutAt command stdio w
  = match shellAt (spawned w) "aws --version" with
    | Throws _ =>
        (if JsText.includes command "s3 cp"
            && JsText.includes command "--recursive"
         then Storage.Raises
                (ErrorObject
                   "AWS CLI not available or not compatible with current environment.")
         else Storage.Returns (Some ""),
         {| console :=
              (console w
                 ++ [(Stderr,
                      "AWS CLI not available or not compatible with current environment.")
                    ])%list;
            spawned := (spawned w ++ ["aws --version"])%list |})
    | Normal =>
        (match shellAt (spawned w ++ ["aws --version"])%list command with
         | Throws _ => Storage.Returns (Some "")
         | Normal =>
             Storage.Returns
               match stdio with
               | Storage.Pipe =>
                   Some (stdoutAt (spawned w ++ ["aws --version"])%list command)
               | Storage.Inherit | Storage.Ignore => None
               end
         end,
         {| console :=
              match shellAt (spawned w ++ ["aws --version"])%list command,
                    stdio with
              | Normal, _ | Throws _, Storage.Ignore => console w
              | Throws _, _ =>
                  (console w
                     ++ [(Stderr, ("Command failed: " ++ command)%string);
                         (Stderr,
                          "This may be due to architecture compatibility issues in Docker.")
                        ])%list
              end;
            spawned := (spawned w ++ ["aws --version"; command])%list |})
    end.
Proof.
  unfold Cli.runAwsCommand, Cli.isAwsCliAvailable,
    Cli.execSyncWith, Storage.console_warn, console_error, bind, ret.
  destruct (shellAt (spawned w) "aws --version"); cbn.
  - destruct (shellAt (spawned w ++ ["aws --version"])%list command), stdio;
      cbn; rewrite <- ?app_assoc; reflexivity.
  - destruct (JsText.includes command "s3 cp"
              && JsText.includes command "--recursive"); reflexivity.
Qed.

Lemma uploadToS3_at (folderName : string) (w : World) :
  let probe := "aws --version" in
  let copy := Storage.uploadCommand S3BUCKET folderName in
  let uploading :=
    (Stdout,
     ("Uploading files from "
        ++ Path.join [Utils.contributionRootFolder; folderName] ++ " to "
        ++ (Storage.S3_BUCKET_PATH S3BUCKET ++ "/" ++ folderName) ++ "...")%string)
  in
  let unavailable :=
    "AWS CLI not available or not compatible with current environment." in
  Cli.uploadToS3 S3BUCKET shellAt stdoutAt inspect folderName w
  = match shellAt (spawned w) probe with
    | Throws _ =>
        (false,
         {| console :=
              (console w
                 ++ [(Stderr, "AWS CLI not available. Skipping S3 upload.")])%list;
            spawned := (spawned w ++ [probe])%list |})
    | Normal =>
        match shellAt (spawned w ++ [probe])%list probe with
        | Throws _ =>
            (false,
             {| console :=
                  (console w
                     ++ [uploading;
                         (Stderr, unavailable);
                         (Stderr,
                          ("Error uploading files to S3: "
                             ++ inspect (ErrorObject unavailable))%string)])%list;
                spawned := (spawned w ++ [probe; probe])%list |})
        | Normal =>
            match shellAt (spawned w ++ [probe; probe])%list copy with
            | Normal =>
                (true,
                 {| console :=
                      (console w
                         ++ [uploading; (Stdout, "Upload complete!")])%list;
                    spawned := (spawned w ++ [probe; probe; copy])%list |})
            | Throws _ =>
                (false,
                 {| console :=
                      (console w
                         ++ [uploading;
                             (Stderr, ("Command failed: " ++ copy)%string);
                             (Stderr,
                              "This may be due to architecture compatibility issues in Docker.");
                             (Stderr, "S3 upload was not successful.")])%list;
                    spawned := (spawned w ++ [probe; probe; copy])%list |})
            end
        end
    end.
Proof.
  cbv zeta. unfold Cli.uploadToS3. unfold bind at 1.
  rewrite isAwsCliAvailable_at.
  destruct (shellAt (spawned w) "aws --version") eqn:Eprobe; cbn [negb];
    [|reflexivity].
  unfold bind at 1. cbn [console_log]. unfold bind at 1.
  rewrite runAwsCommand_at. cbn [spawned console].
  rewrite uploadCommand_is_recursive_copy.
  destruct (shellAt (spawned w ++ ["aws --version"])%list "aws --version").
  - rewrite <- app_assoc. cbn [app].
    destruct (shellAt (spawned w ++ ["aws --version"; "aws --version"])%list
                      (Storage.uploadCommand S3BUCKET folderName));
      unfold bind, console_log, Storage.console_warn, console_error, ret;
      cbn [console spawned]; rewrite <- ?app_assoc; reflexivity.
  - unfold bind, console_log, Storage.console_warn, console_error, ret;
      cbn [console spawned]; rewrite <- ?app_assoc; reflexivity.
Qed.

(** X12: [uploadToS3] never lets an error escape and returns [true]
    exactly when three processes complete one after the other: its own
    probe [aws --version], the probe that [runAwsCommand] runs again, and
    the recursive copy of the folder to the bucket.  When the first probe
    fails nothing else is spawned.  When the second probe fails the copy
    is not spawned either: [runAwsCommand] throws, because the command is
    a recursive copy, and [uploadToS3] catches the error, writes it and
    returns [false].  The bucket is the one of the environment, or the
    default one when that is unset or empty. *)
Theorem uploadToS3_succeeds_iff_probes_and_copy_complete :
  forall (folderName : string) (w : World),
    let probe := "aws --version" in
    let copy := Storage.uploadCommand S3BUCKET folderName in
    let run := Cli.uploadToS3 S3BUCKET shellAt stdoutAt inspect folderName w in
    let first := shellAt (spawned w) probe in
    let second := shellAt (spawned w ++ [probe])%list probe in
    let copied := shellAt (spawned w ++ [probe; probe])%list copy in
    (fst run = true
     <-> first = Normal /\ second = Normal /\ copied = Normal)
    /\ spawned (snd run)
       = (spawned w
            ++ match first, second with
               | Throws _, _ => [probe]
               | Normal, Throws _ => [probe; probe]
               | Normal, Normal => [probe; probe; copy]
               end)%list
    /\ last (console (snd run)) (Stdout, "")
       = match first, second, copied with
         | Throws _, _, _ =>
             (Stderr, "AWS CLI not available. Skipping S3 upload.")
         | Normal, Throws _, _ =>
             (Stderr,
              ("Error uploading files to S3: "
                 ++ inspect
                      (ErrorObject
                         "AWS CLI not available or not compatible with current environment."))%string)
         | Normal, Normal, Throws _ =>
             (Stderr, "S3 upload was not successful.")
         | Normal, Normal, Normal => (Stdout, "Upload complete!")
         end
    /\ copy
       = ("aws s3 cp "
            ++ Path.join [Utils.contributionRootFolder; folderName] ++ " "
            ++ (match S3BUCKET with
                | Some "" | None => "s3://pp-trusted-test"
                | Some bucket => bucket
                end ++ "/" ++ folderName)
            ++ " --recursive")%string.
Proof.
  intros folderName w probe copy run first second copied.
  pose proof (uploadToS3_at folderName w) as Hrun. cbv zeta in Hrun.
  subst run first second copied copy probe. rewrite Hrun.
  destruct (shellAt (spawned w) "aws --version");
    [destruct (shellAt (spawned w ++ ["aws --version"])%list "aws --version");
     [destruct (shellAt (spawned w ++ ["aws --version"; "aws --version"])%list
                        (Storage.uploadCommand S3BUCKET folderName))|]|];
    cbn [fst snd spawned console].
  all: split; [split; [intros H; try discriminate H; auto
                      | intros (H1 & H2 & H3);
                        try discriminate H1; try discriminate H2;
                        try discriminate H3; reflexivity]|].
  all: split; [reflexivity|].
  all: split; [rewrite last_app_cons; reflexivity|].
  all: unfold Storage.uploadCommand, Storage.S3_BUCKET_PATH;
    destruct S3BUCKET as [[|c bucket]|]; reflexivity.
Qed.

End TimedRuns.

(** With deterministic probes the command line of [Cli] is the one of
    [Storage]. *)
Lemma runAwsCommand_untimed (shell : string -> Completion)
      (stdout : string -> string) (command : string) (stdio : Storage.Stdio)
      (w : World) :
  Cli.runAwsCommand (fun _ => shell) (fun _ => stdout) command stdio w
  = Storage.runAwsCommand shell stdout command stdio w.
Proof. reflexivity. Qed.

Example upload_with_a_failing_copy :
  Cli.uploadToS3 None (fun _ => Samples.copyFails) (fun _ => Samples.noOutput)
                 Samples.plainInspect "0001_alice" Samples.freshWorld
  = (false,
     {| console :=
          [(Stdout,
            "Uploading files from contributions/0001_alice to s3://pp-trusted-test/0001_alice...");
           (Stderr,
            "Command failed: aws s3 cp contributions/0001_alice s3://pp-trusted-test/0001_alice --recursive");
           (Stderr,
            "This may be due to architecture compatibility issues in Docker.");
           (Stderr, "S3 upload was not successful.")];
        spawned :=
          ["aws --version"; "aws --version";
           "aws s3 cp contributions/0001_alice s3://pp-trusted-test/0001_alice --recursive"]
     |}).
Proof. vm_compute. reflexivity. Qed.

Example upload_with_a_probe_that_works_once :
  Cli.uploadToS3 None Samples.probeWorksOnce (fun _ => Samples.noOutput)
                 Samples.plainInspect "0001_alice" Samples.freshWorld
  = (false,
     {| console :=
          [(Stdout,
            "Uploading files from contributions/0001_alice to s3://pp-trusted-test/0001_alice...");
           (Stderr,
            "AWS CLI not available or not compatible with current environment.");
           (Stderr,
            "Error uploading files to S3: Error: AWS CLI not available or not compatible with current environment.")];
        spawned := ["aws --version"; "aws --version"] |}).
Proof. vm_compute. reflexivity. Qed.
